(** * Resume analyzer: the analysis pipeline of [routes/analyzer.py]

    A shallow embedding of the text extractor, the normalizer, the
    similarity scorer, the skill-gap analyzer and the batch orchestrator,
    together with the properties the specification states about them. *)

From Stdlib Require Import ZArith List String Ascii Bool Lia SpecFloat.
From stdpp Require Import gmap strings list pretty.

Local Open Scope string_scope.
Local Open Scope Z_scope.

(* [simpl] unfolds the concatenation of strings on a constructor. *)
#[local] Arguments String.append !_ _ : simpl nomatch.

(** ** Numbers at run time

    A Python [float] is an IEEE-754 binary64 number.  The cosine that
    scikit-learn computes on spaCy's vectors is a [numpy.float32], a
    binary32 number, and keeps that type through [min], [max], [* 100] and
    [round]; the literals [0.0] and [1.0] are Python floats. *)
Module Float.

(** binary64 *)
Definition prec : Z := 53.
Definition emax : Z := 1024.

(** binary32 *)
Definition prec32 : Z := 24.
Definition emax32 : Z := 128.

Inductive float : Type :=
  | Py (x : spec_float)      (* a Python float or a numpy.float64: binary64 *)
  | Np32 (x : spec_float).   (* a numpy.float32: binary32 *)

Definition bits (x : float) : spec_float :=
  match x with Py v => v | Np32 v => v end.

Definition valid (x : float) : bool :=
  match x with
  | Py v => valid_binary prec emax v
  | Np32 v => valid_binary prec32 emax32 v
  end.

Definition zero : float := Py (S754_zero false).
Definition one : float := Py (S754_finite false 4503599627370496 (-52)).
Definition hundred : float := Py (S754_finite false 7036874417766400 (-46)).

(** [100.0] in binary32 *)
Definition hundred32 : spec_float := S754_finite false 13107200 (-17).

(** How [m1 * 2 ^ e1] compares with [m2 * 2 ^ e2]. *)
Definition magnitude_compare (m1 : positive) (e1 : Z) (m2 : positive) (e2 : Z)
  : comparison :=
  let e := Z.min e1 e2 in
  Z.compare (Zpos m1 * 2 ^ (e1 - e)) (Zpos m2 * 2 ^ (e2 - e)).

(** Comparison of two numbers by their values, whatever their types:
    the conversion of a binary32 number to binary64 is exact.  [None]
    when one of them is NaN. *)
Definition compare (x y : float) : option comparison :=
  match bits x, bits y with
  | S754_nan, _ | _, S754_nan => None
  | S754_infinity s1, S754_infinity s2 =>
      Some match s1, s2 with
           | true, true | false, false => Eq
           | true, false => Lt
           | false, true => Gt
           end
  | S754_infinity s, _ => Some (if s then Lt else Gt)
  | _, S754_infinity s => Some (if s then Gt else Lt)
  | S754_finite s _ _, S754_zero _ => Some (if s then Lt else Gt)
  | S754_zero _, S754_finite s _ _ => Some (if s then Gt else Lt)
  | S754_zero _, S754_zero _ => Some Eq
  | S754_finite s1 m1 e1, S754_finite s2 m2 e2 =>
      Some match s1, s2 with
           | true, false => Lt
           | false, true => Gt
           | false, false => magnitude_compare m1 e1 m2 e2
           | true, true => CompOpp (magnitude_compare m1 e1 m2 e2)
           end
  end.

Definition ltb (x y : float) : bool :=
  match compare x y with Some Lt => true | _ => false end.

Definition leb (x y : float) : bool :=
  match compare x y with Some (Lt | Eq) => true | _ => false end.

Definition is_nan (x : float) : bool :=
  match bits x with S754_nan => true | _ => false end.

(** [not x] on a number: only the two zeros are falsy; NaN is truthy. *)
Definition falsy (x : float) : bool :=
  match bits x with S754_zero _ => true | _ => false end.

(** The builtin [min(a, b)]: keep [a] unless [b < a]. *)
Definition py_min (a b : float) : float := if ltb b a then b else a.

(** The builtin [max(a, b)]: keep [a] unless [b > a]. *)
Definition py_max (a b : float) : float := if ltb a b then b else a.

(** [x * 100]: the int [100] becomes [100.0] in the type of [x], and the
    product is rounded to nearest-even in that type. *)
Definition times_hundred (x : float) : float :=
  match x with
  | Py v => Py (SFmul prec emax v (bits hundred))
  | Np32 v => Np32 (SFmul prec32 emax32 v hundred32)
  end.

End Float.

(** ** Python strings

    A [string] is read as a sequence of code points below 256 (the Latin-1
    block of Unicode), on which [str.lower], the regex class [\W] and
    [str.split] are given as Python defines them. *)
Module PyStr.

Definition code (c : ascii) : N := N_of_ascii c.

Definition between (lo hi : N) (c : ascii) : bool :=
  ((lo <=? code c) && (code c <=? hi))%N.

(** Code points that have a distinct lowercase form: A-Z and the
    accented capitals U+00C0..U+00DE without the multiplication sign. *)
Definition is_upper (c : ascii) : bool :=
  between 65 90 c || between 192 214 c || between 216 222 c.

Definition lower_char (c : ascii) : ascii :=
  if is_upper c then ascii_of_N (code c + 32) else c.

(** [s.lower()] *)
Fixpoint lower (s : string) : string :=
  match s with
  | EmptyString => EmptyString
  | String c rest => String (lower_char c) (lower rest)
  end.

(** The regex class [\w] on [str] patterns: alphanumeric code points
    and the underscore. *)
Definition is_word_char (c : ascii) : bool :=
  between 48 57 c || between 65 90 c || (code c =? 95)%N || between 97 122 c
  || (code c =? 170)%N || between 178 179 c || (code c =? 181)%N
  || between 185 186 c || between 188 190 c
  || between 192 214 c || between 216 246 c || between 248 255 c.

(** [re.sub(r'\W+', ' ', s)]: [in_run] tells that the previous
    character already belonged to the run being replaced. *)
Fixpoint sub_nonword_from (in_run : bool) (s : string) : string :=
  match s with
  | EmptyString => EmptyString
  | String c rest =>
      if is_word_char c then String c (sub_nonword_from false rest)
      else if in_run then sub_nonword_from true rest
      else String " " (sub_nonword_from true rest)
  end.

Definition sub_nonword (s : string) : string := sub_nonword_from false s.

(** Whitespace of [str.split()] below code point 256. *)
Definition is_space (c : ascii) : bool :=
  between 9 13 c || between 28 32 c || (code c =? 133)%N || (code c =? 160)%N.

Definition flush (cur : string) (acc : list string) : list string :=
  match cur with EmptyString => acc | _ => acc ++ [cur] end.

Fixpoint split_from (cur : string) (acc : list string) (s : string) : list string :=
  match s with
  | EmptyString => flush cur acc
  | String c rest =>
      if is_space c then split_from EmptyString (flush cur acc) rest
      else split_from (cur ++ String c EmptyString) acc rest
  end.

(** [s.split()] *)
Definition split (s : string) : list string := split_from EmptyString [] s.

(** [sep.join(l)] *)
Definition join (sep : string) (l : list string) : string := String.concat sep l.

(** [len(s)] *)
Definition len (s : string) : nat := String.length s.

(** Truth value of a string: the empty string is falsy. *)
Definition truthy (s : string) : bool :=
  match s with EmptyString => false | _ => true end.

Fixpoint basename_from (cur : string) (s : string) : string :=
  match s with
  | EmptyString => cur
  | String c rest =>
      if Ascii.eqb c "/" then basename_from EmptyString rest
      else basename_from (cur ++ String c EmptyString) rest
  end.

(** [os.path.basename(p)] on a POSIX path: what follows the last slash. *)
Definition basename (p : string) : string := basename_from EmptyString p.

(** A text is lowercase when [lower] leaves it unchanged. *)
Definition lowercase (s : string) : Prop := lower s = s.

Definition newline : string := String (ascii_of_N 10) EmptyString.

(** [c in s] for a character [c] *)
Fixpoint contains (c : ascii) (s : string) : bool :=
  match s with
  | EmptyString => false
  | String c' rest => Ascii.eqb c' c || contains c rest
  end.

(** [s.rsplit(sep, 1)]: the text before and the text after the last
    [sep]; the whole of [s] alone when it has no [sep]. *)
Fixpoint rsplit1 (sep : ascii) (s : string) : list string :=
  match s with
  | EmptyString => [EmptyString]
  | String c rest =>
      match rsplit1 sep rest with
      | [before; after] => [String c before; after]
      | _ => if Ascii.eqb c sep then [EmptyString; rest] else [String c rest]
      end
  end.

(** [c.isalnum()] below code point 256. *)
Definition is_alnum (c : ascii) : bool :=
  between 48 57 c || between 65 90 c || between 97 122 c
  || (code c =? 170)%N || between 178 179 c || (code c =? 181)%N
  || between 185 186 c || between 188 190 c
  || between 192 214 c || between 216 246 c || between 248 255 c.

(** [''.join(c for c in s if keep(c))] *)
Fixpoint keep_chars (keep : ascii -> bool) (s : string) : string :=
  match s with
  | EmptyString => EmptyString
  | String c rest =>
      if keep c then String c (keep_chars keep rest) else keep_chars keep rest
  end.

(** [s.lstrip()] *)
Fixpoint lstrip (s : string) : string :=
  match s with
  | EmptyString => EmptyString
  | String c rest => if is_space c then lstrip rest else s
  end.

(** [s.rstrip()] *)
Fixpoint rstrip (s : string) : string :=
  match s with
  | EmptyString => EmptyString
  | String c rest =>
      match rstrip rest with
      | EmptyString => if is_space c then EmptyString else String c EmptyString
      | kept => String c kept
      end
  end.

(** [s.strip()] *)
Definition strip (s : string) : string := rstrip (lstrip s).

(** [s.startswith('/')] and [s.endswith('/')] *)
Definition starts_with_slash (s : string) : bool :=
  match s with String c _ => Ascii.eqb c "/" | EmptyString => false end.

Fixpoint ends_with_slash (s : string) : bool :=
  match s with
  | EmptyString => false
  | String c EmptyString => Ascii.eqb c "/"
  | String _ rest => ends_with_slash rest
  end.

(** [os.path.join(a, b)] on POSIX. *)
Definition path_join (a b : string) : string :=
  if starts_with_slash b then b
  else if negb (truthy a) || ends_with_slash a then a ++ b
  else a ++ "/" ++ b.

End PyStr.

(** ** Calls to the outside world

    The pipeline reads files and calls NLTK, spaCy and scikit-learn.  Every
    such call is recorded, in program order, next to the value computed, so
    that "is never invoked" and "before any resume is processed" are
    statements about the recorded calls. *)
Inductive call : Type :=
  | OpenPdf (file_path : string)
  | Tokenize (text : string)
  | Lemmatize (token : string)
  | Nlp (text : string)
  | Cosine (u v : list Float.float).

Record traced (A : Type) : Type := Traced { calls : list call; value : A }.
Arguments Traced {A} _ _.
Arguments calls {A} _.
Arguments value {A} _.

Definition ret {A : Type} (a : A) : traced A := Traced [] a.

Definition bind {A B : Type} (m : traced A) (k : A -> traced B) : traced B :=
  let r := k (value m) in Traced (calls m ++ calls r) (value r).

Definition emit (c : call) : traced unit := Traced [c] tt.

Notation "'let*' x ':=' m 'in' k" := (bind m (fun x => k))
  (at level 10, x name, m at level 100, k at level 200).
Notation "'let*' ' pat ':=' m 'in' k" :=
  (bind m (fun x => match x with pat => k end))
  (at level 10, pat pattern, m at level 100, k at level 200).

(** [[f(x) for x in l]] with the calls of each [f(x)] in order. *)
Fixpoint for_list {A B : Type} (f : A -> traced B) (l : list A) : traced (list B) :=
  match l with
  | [] => ret []
  | x :: rest => let* y := f x in let* ys := for_list f rest in ret (y :: ys)
  end.

(** [for x in l: body], the loop variables threaded as [st]. *)
Fixpoint for_each {A S : Type} (body : S -> A -> traced S) (l : list A) (st : S) : traced S :=
  match l with
  | [] => ret st
  | x :: rest => let* st' := body st x in for_each body rest st'
  end.

(** ** Data *)

(** What [nlp(text)] returns, as far as the pipeline looks at it. *)
Record Doc : Type := {
  has_vector : bool;
  vector_norm : Float.float;
  vector : list Float.float;
  noun_chunks : list string    (* [chunk.text] of each noun chunk, in order *)
}.

(** What [page.extract_text()] does on one page: it returns a string or
    [None], or it raises. *)
Inductive page : Type :=
  | PageText (page_text : option string)
  | PageRaises.

(** A computation inside [try]: a value, or an exception. *)
Inductive outcome (A : Type) : Type :=
  | Returned (a : A)
  | Raised.
Arguments Returned {A} _.
Arguments Raised {A}.

(** One element of the [results] list of the response. *)
Inductive entry : Type :=
  | ErrorEntry (resume message : string)
  | SuccessEntry (resume : string) (match_score : Float.float)
      (key_strengths missing_skills : list string) (feedback : string).

Inductive status : Type := success | error.

Record response : Type := {
  http_code : nat;
  resp_status : status;
  resp_message : string;
  resp_results : option (list entry)   (* [None]: the key is absent *)
}.

(** The JSON body of [/analyze] and of [/submit-job-description], as
    [request.get_json()] returns it.  A body that is the empty object, or
    another falsy JSON value, is [None]; a field that is absent from the
    object is [None].  A request without a JSON body is answered by Flask
    before the handler runs. *)
Record request : Type := {
  resume_files : option (list (gmap string string));
  job_description : option string
}.

(** What [jsonify] can write of an entry: a [numpy.float32] score is not
    JSON serializable. *)
Definition json_serializable (e : entry) : bool :=
  match e with
  | SuccessEntry _ (Float.Np32 _) _ _ _ => false
  | _ => true
  end.

(** [jsonify(body)]: the body, or the [TypeError] of an entry that cannot
    be written, which no handler catches. *)
Definition jsonify (body : response) : outcome response :=
  if forallb json_serializable (default [] (resp_results body))
  then Returned body
  else Raised.

Definition entry_resume (e : entry) : string :=
  match e with ErrorEntry r _ => r | SuccessEntry r _ _ _ _ => r end.

Definition entry_ok (e : entry) : bool :=
  match e with ErrorEntry _ _ => false | SuccessEntry _ _ _ _ _ => true end.

(** ** Sample collaborators

    A small, fully computable stand-in for every collaborator the pipeline
    receives: used to run the definitions on concrete inputs. *)
Module Sample.

(** Noun chunks: the whitespace-separated words; a two-component vector
    that is zero exactly for the text ["zzz"]. *)
Definition nlp (text : string) : Doc :=
  if String.eqb text "zzz"
  then {| has_vector := true; vector_norm := Float.zero;
          vector := [Float.zero; Float.zero]; noun_chunks := [] |}
  else {| has_vector := true; vector_norm := Float.one;
          vector := [Float.one; Float.zero]; noun_chunks := PyStr.split text |}.

Definition stop_words : gset string :=
  list_to_set ["the"; "and"; "of"; "in"; "to"; "a"; "do"; "for"; "with"].

(** A fragment of the WordNet lemmatizer, which strips the plural [s]
    also from ["us"] and ["dos"]. *)
Definition lemmatize (token : string) : string :=
  if String.eqb token "us" then "u"
  else if String.eqb token "dos" then "do"
  else if String.eqb token "skills" then "skill"
  else token.

Definition word_tokenize (text : string) : list string := PyStr.split text.

(** A cosine of [1.0], as a [numpy.float32]. *)
Definition cosine_similarity (u v : list Float.float) : Float.float :=
  Float.Np32 (S754_finite false 8388608 (-23)).

(** A cosine of [0.6], as a [numpy.float32]. *)
Definition cosine_sixty (u v : list Float.float) : Float.float :=
  Float.Np32 (S754_finite false 10066330 (-24)).

(** A directory with a two-page resume, a scanned resume without text,
    a resume whose second page cannot be decoded, and a corrupt file. *)
Definition open_pdf (file_path : string) : option (list page) :=
  if String.eqb file_path "/tmp/good.pdf"
  then Some [PageText (Some "Python skills"); PageText (Some "SQL")]
  else if String.eqb file_path "/tmp/scan.pdf"
  then Some [PageText (Some ""); PageText None]
  else if String.eqb file_path "/tmp/page2.pdf"
  then Some [PageText (Some "Python skills"); PageRaises]
  else None.

Definition round_float (x : spec_float) : spec_float := x.

Definition round_float32 (x : spec_float) : spec_float := x.

Definition list_of_set (s : gset string) : list string := elements s.

(** Three resumes: a readable one, one without [path], one whose file is
    missing. *)
Definition batch : request :=
  {| resume_files :=
       Some [ {[ "path" := "/tmp/good.pdf" ]};
              {[ "original_name" := "cv.pdf" ]};
              {[ "path" := "/tmp/none.pdf"; "original_name" := "lost.pdf" ]} ];
     job_description := Some "Python and SQL skills" |}.

(** Two resumes, none of which can be read. *)
Definition all_bad : request :=
  {| resume_files :=
       Some [ {[ "path" := "/tmp/page2.pdf" ]}; {[ "path" := "/tmp/scan.pdf" ]} ];
     job_description := Some "Python and SQL skills" |}.

(** A job description made of stop words only. *)
Definition stop_word_jd : request :=
  {| resume_files := Some [ {[ "path" := "/tmp/good.pdf" ]} ];
     job_description := Some "the and of" |}.

End Sample.

(** ** The upload and job-description endpoints *)

Definition ALLOWED_EXTENSIONS : gset string := {[ "pdf" ]}.

(** [filename.rsplit('.', 1)[1]]; the index is only reached behind the
    test ['.' in filename], where it exists. *)
Definition after_last_dot (name : string) : string :=
  default "" (PyStr.rsplit1 "." name !! 1%nat).

Definition allowed_file (filename : string) : bool :=
  PyStr.contains "." filename
  && bool_decide (PyStr.lower (after_last_dot filename) ∈ ALLOWED_EXTENSIONS).

(** One part of the multipart form: the name the client gave and the
    bytes of the file. *)
Record upload : Type := { filename : string; content : string }.

(** One element of the [files] list of the upload response. *)
Record stored_file : Type := {
  original_name : string;
  stored_name : string;
  path : string
}.

Record upload_response : Type := {
  upload_code : nat;
  upload_status : status;
  upload_message : string;
  upload_files : option (list stored_file)   (* [None]: the key is absent *)
}.

(** The variables of the upload loop: the list built so far, the files
    written by [file.save] as (path, bytes), and how many identifiers
    [uuid.uuid4()] has handed out. *)
Record upload_state : Type := {
  uploaded_files : list stored_file;
  saved : list (string * string);
  ids_used : nat
}.

(** [c.isalnum() or c in '._-'] *)
Definition safe_char (c : ascii) : bool :=
  PyStr.is_alnum c || PyStr.contains c "._-".

(** The body of the [for file in files] loop of [upload_resumes];
    [uuid4_hex k] is the [k]-th identifier drawn during the request. *)
Definition store_file (UPLOAD_FOLDER : string) (uuid4_hex : nat -> string)
    (st : upload_state) (file : upload) : upload_state :=
  if PyStr.truthy (filename file) && allowed_file (filename file)
  then
    let original_filename := filename file in
    let safe_filename := PyStr.keep_chars safe_char original_filename in
    let file_extension :=
      if PyStr.contains "." safe_filename
      then PyStr.lower (after_last_dot safe_filename)
      else "pdf" in
    let unique_filename := uuid4_hex (ids_used st) ++ "." ++ file_extension in
    let filepath := PyStr.path_join UPLOAD_FOLDER unique_filename in
    {| uploaded_files :=
         uploaded_files st
           ++ [ {| original_name := original_filename;
                   stored_name := unique_filename;
                   path := filepath |} ];
       saved := saved st ++ [(filepath, content file)];
       ids_used := S (ids_used st) |}
  else st.

Definition upload_error (msg : string) : upload_response :=
  {| upload_code := 400; upload_status := error; upload_message := msg;
     upload_files := None |}.

Definition upload_loop (UPLOAD_FOLDER : string) (uuid4_hex : nat -> string)
    (files : list upload) : upload_state :=
  fold_left (store_file UPLOAD_FOLDER uuid4_hex) files
    {| uploaded_files := []; saved := []; ids_used := 0 |}.

(** [upload_resumes]: [resumes] is [request.files.getlist('resumes')],
    or [None] when the form has no such field.  The result is the
    response together with the files written to disk. *)
Definition upload_resumes (UPLOAD_FOLDER : string) (uuid4_hex : nat -> string)
    (resumes : option (list upload)) : upload_response * list (string * string) :=
  match resumes with
  | None => (upload_error "No resume files provided", [])
  | Some files =>
      match files with
      | [] => (upload_error "No resume files selected", [])
      | first :: _ =>
          if String.eqb (filename first) ""
          then (upload_error "No resume files selected", [])
          else
            let st := upload_loop UPLOAD_FOLDER uuid4_hex files in
            match uploaded_files st with
            | [] => (upload_error "No valid PDF files were uploaded", saved st)
            | _ :: _ =>
                ({| upload_code := 200; upload_status := success;
                    upload_message :=
                      "Successfully uploaded " ++ pretty (length (uploaded_files st))
                        ++ " resume(s)";
                    upload_files := Some (uploaded_files st) |},
                 saved st)
            end
      end
  end.

Record jd_response : Type := {
  jd_code : nat;
  jd_status : status;
  jd_message : string;
  jd_id : option string;
  jd_job_description : option string
}.

Definition jd_error (msg : string) : jd_response :=
  {| jd_code := 400; jd_status := error; jd_message := msg;
     jd_id := None; jd_job_description := None |}.

(** [submit_job_description]: [uuid4_hex] is the identifier that
    [uuid.uuid4()] would draw. *)
Definition submit_job_description (uuid4_hex : string) (data : option request)
  : jd_response :=
  match data with
  | None => jd_error "No job description provided"
  | Some data =>
      match job_description data with
      | None => jd_error "No job description provided"
      | Some job_description =>
          if negb (PyStr.truthy job_description)
             || (PyStr.len (PyStr.strip job_description) =? 0)%nat
          then jd_error "Job description cannot be empty"
          else
            {| jd_code := 200; jd_status := success;
               jd_message := "Job description received";
               jd_id := Some uuid4_hex;
               jd_job_description := Some job_description |}
      end
  end.

(** ** Loading the NLP resources *)

(** The calls [load_nlp_resources] makes to NLTK and spaCy. *)
Inductive setup_call : Type :=
  | NltkDownload (resource : string)
  | SpacyLoad (model : string)
  | SpacyCliDownload (model : string).

(** The three module-level globals; [None] is Python's [None]. *)
Record nlp_globals : Type := {
  g_nlp : option (string -> Doc);
  g_stop_words : option (gset string);
  g_lem : option (string -> string)
}.

Definition NLP_MODEL : string := "en_core_web_lg".

(** What a call of [load_nlp_resources] leaves behind: the calls made,
    the globals as assigned so far, and whether an exception escaped. *)
Record setup_result : Type := {
  setup_calls : list setup_call;
  globals_after : nlp_globals;
  raised : bool
}.

(** [load_nlp_resources]: [spacy_load k] is what the [k]-th call of
    [spacy.load] does, a model or [OSError]; [cli_download] is what
    [spacy.cli.download] does; [stopwords_words] is what
    [stopwords.words("english")] does, the word list or [LookupError];
    [lemmatizer] is the [WordNetLemmatizer].  [nltk.download] reports a
    failure by its result, which is not looked at. *)
Definition load_nlp_resources (spacy_load : nat -> outcome (string -> Doc))
    (cli_download : outcome unit) (stopwords_words : outcome (list string))
    (lemmatizer : string -> string) (g : nlp_globals) : setup_result :=
  match g_nlp g, g_stop_words g, g_lem g with
  | Some _, Some _, Some _ =>
      {| setup_calls := []; globals_after := g; raised := false |}
  | _, _, _ =>
      let downloads :=
        [NltkDownload "wordnet"; NltkDownload "stopwords"; NltkDownload "punkt"] in
      let finish (made : list setup_call) (model : string -> Doc) : setup_result :=
        match stopwords_words with
        | Raised =>
            {| setup_calls := made;
               globals_after :=
                 {| g_nlp := Some model; g_stop_words := g_stop_words g;
                    g_lem := g_lem g |};
               raised := true |}
        | Returned words =>
            {| setup_calls := made;
               globals_after :=
                 {| g_nlp := Some model; g_stop_words := Some (list_to_set words);
                    g_lem := Some lemmatizer |};
               raised := false |}
        end in
      match spacy_load 0%nat with
      | Returned model => finish (downloads ++ [SpacyLoad NLP_MODEL])%list model
      | Raised =>
          match cli_download with
          | Raised =>
              {| setup_calls :=
                   (downloads ++ [SpacyLoad NLP_MODEL; SpacyCliDownload NLP_MODEL])%list;
                 globals_after := g; raised := true |}
          | Returned _ =>
              let made :=
                (downloads ++ [SpacyLoad NLP_MODEL; SpacyCliDownload NLP_MODEL;
                               SpacyLoad NLP_MODEL])%list in
              match spacy_load 1%nat with
              | Returned model => finish made model
              | Raised => {| setup_calls := made; globals_after := g; raised := true |}
              end
          end
      end
  end.

(** Sample inputs of the two endpoints. *)
Module SampleUpload.

Definition UPLOAD_FOLDER : string := "/tmp/resume_uploads".

Definition uuid4_hex (k : nat) : string := "id" ++ pretty k.

Definition files : list upload :=
  [ {| filename := "My CV (final).PDF"; content := "%PDF-1" |};
    {| filename := "notes.txt"; content := "hello" |};
    {| filename := "archive.pdf.zip"; content := "PK" |};
    {| filename := "../../etc/cv.pdf"; content := "%PDF-2" |} ].

End SampleUpload.

(** A first start of the server: the model is not installed, its download
    works, and the model loads afterwards. *)
Module SampleSetup.

Definition unloaded : nlp_globals :=
  {| g_nlp := None; g_stop_words := None; g_lem := None |}.

Definition spacy_load (k : nat) : outcome (string -> Doc) :=
  match k with
  | O => Raised
  | S _ => Returned Sample.nlp
  end.

Definition cli_download : outcome unit := Returned tt.

Definition stopwords_words : outcome (list string) := Returned ["the"; "and"; "of"].

End SampleSetup.

(** ** The pipeline *)
Section Pipeline.

Import Float PyStr.

(* A statement depends on the collaborators it mentions and on no other. *)
#[local] Set Default Proof Using "Type".

(** The process-wide NLP resources and the other collaborators. *)
Variable nlp : string -> Doc.                       (* the spaCy model *)
Variable stop_words : gset string.                  (* NLTK's English stop words *)
Variable lemmatize : string -> string.              (* [lem.lemmatize] *)
Variable word_tokenize : string -> list string.     (* NLTK's [word_tokenize] *)
Variable cosine_similarity : list float -> list float -> float.
                                                    (* sklearn, on two one-row matrices *)
Variable open_pdf : string -> option (list page).   (* [open] and [PyPDF2.PdfReader];
                                                       [None]: one of them raises *)
Variable round_float : spec_float -> spec_float.     (* [round(x, 1)] on a float *)
Variable round_float32 : spec_float -> spec_float.   (* and on a numpy.float32 *)
Variable list_of_set : gset string -> list string.  (* [list(s)] on a set *)

(** [round(x, 1)]: the result has the type of [x]. *)
Definition round1 (x : float) : float :=
  match x with
  | Py v => Py (round_float v)
  | Np32 v => Np32 (round_float32 v)
  end.

Definition call_nlp (text : string) : traced Doc :=
  let* _ := emit (Nlp text) in ret (nlp text).

Definition call_word_tokenize (text : string) : traced (list string) :=
  let* _ := emit (Tokenize text) in ret (word_tokenize text).

Definition call_lemmatize (token : string) : traced string :=
  let* _ := emit (Lemmatize token) in ret (lemmatize token).

Definition call_cosine_similarity (u v : list float) : traced float :=
  let* _ := emit (Cosine u v) in ret (cosine_similarity u v).

(** The body of the [for page in pdf_reader.pages] loop, [text] being
    the text accumulated so far. *)
Fixpoint read_pages (pages : list page) (text : string) : outcome string :=
  match pages with
  | [] => Returned text
  | PageRaises :: _ => Raised
  | PageText page_text :: rest =>
      match page_text with
      | Some t => if truthy t then read_pages rest (text ++ t ++ newline)
                  else read_pages rest text
      | None => read_pages rest text
      end
  end.

(** What the [try] block computes. *)
Definition read_pdf (file_path : string) : outcome string :=
  match open_pdf file_path with
  | None => Raised
  | Some pages => read_pages pages ""
  end.

Definition extract_text_from_pdf (file_path : string) : traced (option string) :=
  let* _ := emit (OpenPdf file_path) in
  match read_pdf file_path with
  | Raised => ret None
  | Returned text => if negb (truthy text) then ret None else ret (Some text)
  end.

(** The filter of the list comprehension in [preprocess]. *)
Definition keep_token (t : string) : bool :=
  negb (bool_decide (t ∈ stop_words)) && (1 <? len t)%nat.

Definition preprocess (text : string) : traced string :=
  if negb (truthy text) then ret ""
  else
    let text := sub_nonword (lower text) in
    let* tokens := call_word_tokenize text in
    let* processed_tokens := for_list call_lemmatize (filter keep_token tokens) in
    ret (join " " processed_tokens).

Definition calculate_similarity (jd_text resume_text : string) : traced float :=
  if negb (truthy jd_text) || negb (truthy resume_text) then ret zero
  else
    let* jd_doc := call_nlp jd_text in
    let* resume_doc := call_nlp resume_text in
    if negb (has_vector jd_doc) || negb (has_vector resume_doc)
       || falsy (vector_norm jd_doc) || falsy (vector_norm resume_doc)
    then ret zero
    else
      let* similarity := call_cosine_similarity (vector jd_doc) (vector resume_doc) in
      ret (times_hundred (py_max zero (py_min one similarity))).

Definition short_chunk (chunk : string) : bool :=
  (length (split chunk) <=? 3)%nat.

Definition all_stop_words (s : string) : bool :=
  forallb (fun token => bool_decide (token ∈ stop_words)) (split s).

Definition is_skill (s : string) : bool :=
  (2 <? len s)%nat && negb (all_stop_words s).

Definition extract_skills (text : string) : traced (gset string) :=
  if negb (truthy text) then ret ∅
  else
    let* doc := call_nlp text in
    let skills : gset string :=
      list_to_set (map lower (filter short_chunk (noun_chunks doc))) in
    let skills : gset string := filter (fun s => is_skill s = true) skills in
    ret skills.

Definition MAX_SKILLS_DISPLAY : nat := 10.

Definition no_jd_skills_feedback : string :=
  "Could not extract skills from Job Description.".

Definition analyze_skills (jd_processed resume_processed : string)
  : traced (list string * list string * string) :=
  let* jd_skills := extract_skills jd_processed in
  let* resume_skills := extract_skills resume_processed in
  if bool_decide (jd_skills = ∅) then ret ([], [], no_jd_skills_feedback)
  else
    let strengths := list_of_set (jd_skills ∩ resume_skills) in
    let missing_skills := list_of_set (jd_skills ∖ resume_skills) in
    let feedback :=
      "Candidate shows strength in " ++ pretty (length strengths) ++ " key areas. " in
    let feedback :=
      match missing_skills with
      | _ :: _ =>
          feedback ++ "Potential gaps identified in " ++ pretty (length missing_skills)
            ++ " areas like: " ++ join ", " (take 3 missing_skills) ++ "..."
      | [] => feedback ++ "Covers all key skill areas identified."
      end in
    ret (take MAX_SKILLS_DISPLAY strengths, take MAX_SKILLS_DISPLAY missing_skills, feedback).

Definition error_response (msg : string) : response :=
  {| http_code := 400; resp_status := error; resp_message := msg; resp_results := None |}.

(** The body of the [for resume_file in resume_files] loop; the loop
    variables are [results_list] and [valid_resumes_count]. *)
Definition process_resume (jd_processed : string) (st : list entry * nat)
    (resume_file : gmap string string) : traced (list entry * nat) :=
  let '(results_list, valid_resumes_count) := st in
  match resume_file !! "path" with
  | None => ret st
  | Some file_path =>
      let original_name := default (basename file_path) (resume_file !! "original_name") in
      let* resume_text_raw := extract_text_from_pdf file_path in
      match resume_text_raw with
      | None =>
          ret ((results_list ++ [ErrorEntry original_name "Could not extract text from PDF"])%list,
               valid_resumes_count)
      | Some resume_text_raw =>
          if negb (truthy resume_text_raw)
          then ret ((results_list ++ [ErrorEntry original_name "Could not extract text from PDF"])%list,
                    valid_resumes_count)
          else
            let* resume_text_processed := preprocess resume_text_raw in
            if negb (truthy resume_text_processed)
            then ret ((results_list ++ [ErrorEntry original_name "Could not preprocess resume text"])%list,
                      valid_resumes_count)
            else
              let* match_score := calculate_similarity jd_processed resume_text_processed in
              let* '(strengths, missing, feedback) :=
                analyze_skills jd_processed resume_text_processed in
              ret ((results_list
                      ++ [SuccessEntry original_name (round1 match_score) strengths missing feedback])%list,
                   S valid_resumes_count)
      end
  end.

Definition analyze_loop (jd_processed : string) (resume_files : list (gmap string string))
  : traced (list entry * nat) :=
  for_each (process_resume jd_processed) resume_files ([], 0%nat).

Definition analyze_resumes (data : option request) : traced (outcome response) :=
  match data with
  | None => ret (jsonify (error_response "No data provided"))
  | Some data =>
      match resume_files data with
      | None | Some [] =>
          ret (jsonify (error_response "No resume files specified for analysis"))
      | Some resume_files =>
          match job_description data with
          | None => ret (jsonify (error_response "No job description provided for analysis"))
          | Some job_description_raw =>
              if negb (truthy job_description_raw)
              then ret (jsonify (error_response "No job description provided for analysis"))
              else
                let* jd_processed := preprocess job_description_raw in
                if negb (truthy jd_processed)
                then ret (jsonify (error_response "Could not process the job description"))
                else
                  let* '(results_list, valid_resumes_count) :=
                    analyze_loop jd_processed resume_files in
                  if (valid_resumes_count =? 0)%nat
                  then ret (jsonify (error_response "No valid resumes could be processed"))
                  else
                    ret (jsonify
                           {| http_code := 200; resp_status := success;
                              resp_message := "Successfully analyzed "
                                                ++ pretty valid_resumes_count ++ " resume(s)";
                              resp_results := Some results_list |})
          end
      end
  end.

(** *** Vocabulary of the statements *)

(** The text a page contributes, if any. *)
Definition page_yield (p : page) : option string :=
  match p with
  | PageText (Some t) => if truthy t then Some t else None
  | _ => None
  end.

Definition page_texts (pages : list page) : list string := omap page_yield pages.

Definition page_fails (p : page) : bool :=
  match p with PageRaises => true | PageText _ => false end.

(** Each text followed by a newline, all concatenated. *)
Fixpoint with_newlines (texts : list string) : string :=
  match texts with
  | [] => ""
  | t :: rest => t ++ newline ++ with_newlines rest
  end.

Definition has_path (resume_file : gmap string string) : bool :=
  bool_decide (is_Some (resume_file !! "path")).

(** The name under which a resume is reported. *)
Definition resume_name (resume_file : gmap string string) : string :=
  default (basename (default "" (resume_file !! "path"))) (resume_file !! "original_name").

(** A resume completes the pipeline: it names a file, text comes out of
    the file, and that text does not normalize to nothing. *)
Definition completes (resume_file : gmap string string) : bool :=
  match resume_file !! "path" with
  | None => false
  | Some file_path =>
      match value (extract_text_from_pdf file_path) with
      | None => false
      | Some raw => truthy raw && truthy (value (preprocess raw))
      end
  end.

Definition is_open (c : call) : bool :=
  match c with OpenPdf _ => true | _ => false end.

Definition is_cosine (c : call) : bool :=
  match c with Cosine _ _ => true | _ => false end.

Definition is_tokenize (c : call) : bool :=
  match c with Tokenize _ => true | _ => false end.

(** Every character of [s] satisfies [p]. *)
Fixpoint all_chars (p : ascii -> bool) (s : string) : bool :=
  match s with
  | EmptyString => true
  | String c rest => p c && all_chars p rest
  end.

(** A text made of word characters and of spaces that do not follow a
    space; [after_space] tells that the previous character was a space. *)
Fixpoint single_spaced (after_space : bool) (s : string) : bool :=
  match s with
  | EmptyString => true
  | String c rest =>
      if is_word_char c then single_spaced false rest
      else Ascii.eqb c " " && negb after_space && single_spaced true rest
  end.

(** What one resume adds to the result list and to the counter. *)
Definition resume_outcome (jd_processed : string) (resume_file : gmap string string)
  : list entry * nat :=
  value (process_resume jd_processed ([], 0%nat) resume_file).

(** What the upload loop is expected to store for the accepted files
    [accepted], the first of them under the identifier number [k]. *)
Fixpoint stored_as (UPLOAD_FOLDER : string) (uuid4_hex : nat -> string) (k : nat)
    (accepted : list upload) : list stored_file :=
  match accepted with
  | [] => []
  | file :: rest =>
      {| original_name := filename file;
         stored_name := uuid4_hex k ++ ".pdf";
         path := path_join UPLOAD_FOLDER (uuid4_hex k ++ ".pdf") |}
        :: stored_as UPLOAD_FOLDER uuid4_hex (S k) rest
  end.

Definition accepted_uploads (files : list upload) : list upload :=
  filter (fun file => allowed_file (filename file) = true) files.

(** An element of the upload response, sent back as an element of
    [resume_files]. *)
Definition as_resume_file (sf : stored_file) : gmap string string :=
  {[ "original_name" := original_name sf;
     "stored_name" := stored_name sf;
     "path" := path sf ]}.

(** *** Strings *)

Lemma append_nil_r (s : string) : s ++ "" = s.
Proof. induction s as [|c s IH]; simpl; [reflexivity | now rewrite IH]. Qed.

Lemma append_assoc (s1 s2 s3 : string) : (s1 ++ s2) ++ s3 = s1 ++ (s2 ++ s3).
Proof. induction s1 as [|c s1 IH]; simpl; [reflexivity | now rewrite IH]. Qed.

Lemma truthy_false (s : string) : truthy s = false <-> s = "".
Proof. destruct s; simpl; split; congruence. Qed.

Lemma truthy_true (s : string) : truthy s = true <-> s <> "".
Proof. destruct s; simpl; split; congruence. Qed.

Lemma truthy_append_l (s1 s2 : string) : truthy s1 = true -> truthy (s1 ++ s2) = true.
Proof. destruct s1; simpl; congruence. Qed.

(** *** The text extractor *)

Lemma with_newlines_app (l1 l2 : list string) :
  with_newlines (l1 ++ l2) = with_newlines l1 ++ with_newlines l2.
Proof.
  induction l1 as [|t l1 IH]; simpl; [reflexivity |].
  now rewrite IH, !append_assoc.
Qed.

(** The loop, in closed form: it raises as soon as one page does, and
    otherwise appends the texts of the pages that have some. *)
Lemma read_pages_closed (pages : list page) (text : string) :
  read_pages pages text =
    if existsb page_fails pages then Raised
    else Returned (text ++ with_newlines (page_texts pages)).
Proof.
  revert text. unfold page_texts.
  induction pages as [|p pages IH]; intros text; simpl.
  - now rewrite append_nil_r.
  - destruct p as [[t|]|]; simpl; try apply IH; try reflexivity.
    destruct (truthy t); simpl; rewrite IH.
    + destruct (existsb page_fails pages); [reflexivity |].
      now rewrite !append_assoc.
    + reflexivity.
Qed.

Lemma page_texts_truthy (pages : list page) :
  Forall (fun t => truthy t = true) (page_texts pages).
Proof.
  induction pages as [|p pages IH]; [constructor |].
  unfold page_texts; simpl. destruct p as [[t|]|]; simpl; try exact IH.
  destruct (truthy t) eqn:Ht; simpl; [constructor; assumption | exact IH].
Qed.

Lemma with_newlines_truthy (texts : list string) :
  truthy (with_newlines texts) = negb (bool_decide (texts = [])).
Proof.
  destruct texts as [|t rest]; [reflexivity |].
  simpl. destruct t; reflexivity.
Qed.

Lemma extract_text_value (file_path : string) :
  value (extract_text_from_pdf file_path) =
    match open_pdf file_path with
    | None => None
    | Some pages =>
        if existsb page_fails pages then None
        else match page_texts pages with
             | [] => None
             | texts => Some (with_newlines texts)
             end
    end.
Proof.
  unfold extract_text_from_pdf, read_pdf. cbn.
  destruct (open_pdf file_path) as [pages|]; [| reflexivity].
  rewrite read_pages_closed.
  destruct (existsb page_fails pages); [reflexivity |].
  cbn. rewrite with_newlines_truthy.
  destruct (page_texts pages); reflexivity.
Qed.

Lemma with_newlines_ends (texts : list string) :
  texts <> [] -> exists body, with_newlines texts = body ++ newline.
Proof.
  induction texts as [|t rest IH]; [congruence | intros _].
  destruct rest as [|t' rest'].
  - exists t. reflexivity.
  - destruct IH as [body Hbody]; [congruence |].
    exists (t ++ newline ++ body).
    change (with_newlines (t :: t' :: rest'))
      with (t ++ newline ++ with_newlines (t' :: rest')).
    now rewrite Hbody, !append_assoc.
Qed.

(** C10: [extract_text_from_pdf] never returns the empty string.  Its
    result is [None], or a non-empty string made of the text of every
    contributing page, each followed by a newline; so a successful
    result ends with a newline. *)
Theorem extract_text_never_empty (file_path : string) :
  value (extract_text_from_pdf file_path) <> Some "" /\
  forall text, value (extract_text_from_pdf file_path) = Some text ->
    text <> "" /\
    (exists pages, open_pdf file_path = Some pages /\
                   text = with_newlines (page_texts pages)) /\
    (exists body, text = body ++ newline).
Proof.
  rewrite extract_text_value.
  destruct (open_pdf file_path) as [pages|]; [| split; [| intros ?]; discriminate].
  destruct (existsb page_fails pages); [split; [| intros ?]; discriminate |].
  destruct (page_texts pages) as [|t rest] eqn:Htexts;
    [split; [| intros ?]; discriminate |].
  assert (Hne : with_newlines (t :: rest) <> "").
  { apply truthy_true. now rewrite with_newlines_truthy. }
  split; [congruence |].
  intros text [= <-]. split; [exact Hne |]. split.
  - exists pages. now rewrite Htexts.
  - apply (with_newlines_ends (t :: rest)). discriminate.
Qed.

(** C5, as the code has it: a page whose extraction returns no text
    ([None] or the empty string) is skipped and contributes nothing;
    an exception, raised by opening or parsing the document or by the
    extraction of any single page, is caught and makes the whole
    extraction absent; without an exception the result is absent only
    when no page yields text. *)
Theorem extract_text_page_failures (file_path : string) :
  (open_pdf file_path = None -> value (extract_text_from_pdf file_path) = None) /\
  (forall pages, open_pdf file_path = Some pages ->
     existsb page_fails pages = true ->
     value (extract_text_from_pdf file_path) = None) /\
  (forall pages, open_pdf file_path = Some pages ->
     existsb page_fails pages = false ->
     value (extract_text_from_pdf file_path) =
       if bool_decide (page_texts pages = []) then None
       else Some (with_newlines (page_texts pages))).
Proof.
  rewrite extract_text_value. repeat split.
  - now intros ->.
  - now intros pages -> ->.
  - intros pages -> ->. now destruct (page_texts pages).
Qed.

(** Drops from the context the collaborators the goal does not mention. *)
Ltac drop_unused :=
  try clear round_float; try clear round_float32; try clear open_pdf;
  try clear cosine_similarity;
  try clear word_tokenize; try clear lemmatize; try clear list_of_set;
  try clear stop_words; try clear nlp.

(** *** The skill-gap analyzer *)

Lemma analyze_skills_value (jd_processed resume_processed : string) :
  value (analyze_skills jd_processed resume_processed) =
    let jd_skills := value (extract_skills jd_processed) in
    let resume_skills := value (extract_skills resume_processed) in
    if bool_decide (jd_skills = ∅) then ([], [], no_jd_skills_feedback)
    else
      let strengths := list_of_set (jd_skills ∩ resume_skills) in
      let missing_skills := list_of_set (jd_skills ∖ resume_skills) in
      (take MAX_SKILLS_DISPLAY strengths, take MAX_SKILLS_DISPLAY missing_skills,
       snd (value (analyze_skills jd_processed resume_processed))).
Proof.
  unfold analyze_skills; cbn.
  destruct (bool_decide (value (extract_skills jd_processed) = ∅)); reflexivity.
Qed.

(** C9: when no skill comes out of the job description, [analyze_skills]
    returns empty strengths, empty missing skills and the message
    "Could not extract skills from Job Description.", whatever the resume
    and whatever order [list] gives to a set: no intersection and no
    difference enters the result. *)
Theorem analyze_skills_no_jd_skills (jd_processed resume_processed : string) :
  value (extract_skills jd_processed) = ∅ ->
  value (analyze_skills jd_processed resume_processed)
    = ([], [], "Could not extract skills from Job Description.").
Proof.
  intros Hempty. rewrite analyze_skills_value. cbn zeta.
  now rewrite bool_decide_eq_true_2.
Qed.

(** C3: the strengths and the missing skills returned by [analyze_skills]
    are disjoint; the strengths lie in the job-description skill set and
    in the resume skill set, the missing skills in the job-description
    skill set and outside the resume skill set; neither list is longer
    than 10.  [list] on a set is only assumed to list members of the set. *)
Theorem analyze_skills_lists (jd_processed resume_processed : string) :
  (forall (s : gset string) (x : string), x ∈ list_of_set s -> x ∈ s) ->
  let jd_skills := value (extract_skills jd_processed) in
  let resume_skills := value (extract_skills resume_processed) in
  let strengths := fst (fst (value (analyze_skills jd_processed resume_processed))) in
  let missing := snd (fst (value (analyze_skills jd_processed resume_processed))) in
  (forall x, x ∈ strengths -> x ∉ missing) /\
  (forall x, x ∈ strengths -> x ∈ jd_skills /\ x ∈ resume_skills) /\
  (forall x, x ∈ missing -> x ∈ jd_skills /\ x ∉ resume_skills) /\
  (length strengths <= 10)%nat /\ (length missing <= 10)%nat.
Proof.
  drop_unused. intros Hlist jd_skills resume_skills strengths missing.
  subst strengths missing. rewrite analyze_skills_value. cbn zeta.
  fold jd_skills resume_skills.
  destruct (bool_decide (jd_skills = ∅)); cbn [fst snd].
  { split; [| split; [| split; [| split]]]; simpl; try lia;
      intros x Hx; now apply elem_of_nil in Hx. }
  assert (Hs : forall x, x ∈ take MAX_SKILLS_DISPLAY (list_of_set (jd_skills ∩ resume_skills))
                         -> x ∈ jd_skills /\ x ∈ resume_skills).
  { intros x Hx. apply elem_of_take in Hx as (i & Hx & _).
    apply list_elem_of_lookup_2, Hlist in Hx. set_solver. }
  assert (Hm : forall x, x ∈ take MAX_SKILLS_DISPLAY (list_of_set (jd_skills ∖ resume_skills))
                         -> x ∈ jd_skills /\ x ∉ resume_skills).
  { intros x Hx. apply elem_of_take in Hx as (i & Hx & _).
    apply list_elem_of_lookup_2, Hlist in Hx. set_solver. }
  split; [| split; [exact Hs | split; [exact Hm | split]]].
  - intros x Hx Hx'. apply Hs in Hx. apply Hm in Hx'. tauto.
  - rewrite length_take. unfold MAX_SKILLS_DISPLAY. lia.
  - rewrite length_take. unfold MAX_SKILLS_DISPLAY. lia.
Qed.

(** *** The normalizer *)

Lemma lower_char_idem (c : ascii) : lower_char (lower_char c) = lower_char c.
Proof. destruct c as [[] [] [] [] [] [] [] []]; reflexivity. Qed.

Lemma lower_idem (s : string) : lower (lower s) = lower s.
Proof.
  induction s as [|c s IH]; simpl; [reflexivity |].
  now rewrite lower_char_idem, IH.
Qed.

Lemma lower_append (s1 s2 : string) : lower (s1 ++ s2) = lower s1 ++ lower s2.
Proof. induction s1 as [|c s1 IH]; simpl; [reflexivity | now rewrite IH]. Qed.

Lemma lowercase_sub_nonword_from (in_run : bool) (s : string) :
  lowercase s -> lowercase (sub_nonword_from in_run s).
Proof.
  unfold lowercase. revert in_run.
  induction s as [|c s IH]; intros in_run Hs; simpl in *; [reflexivity |].
  injection Hs as Hc Hs.
  destruct (is_word_char c); [| destruct in_run]; simpl; rewrite ?Hc, ?IH; auto.
Qed.

Lemma lowercase_cleaned (text : string) : lowercase (sub_nonword (lower text)).
Proof. apply lowercase_sub_nonword_from, lower_idem. Qed.

Lemma lowercase_join (l : list string) :
  Forall lowercase l -> lowercase (join " " l).
Proof.
  unfold lowercase, join. induction 1 as [|t l Ht Hl IH]; [reflexivity |].
  destruct l as [|t' l']; [exact Ht |].
  change (String.concat " " (t :: t' :: l'))
    with (t ++ " " ++ String.concat " " (t' :: l')).
  now rewrite !lower_append, Ht, IH.
Qed.

Lemma keep_token_spec (t : string) :
  Is_true (keep_token t) <-> (t ∉ stop_words) /\ (1 < len t)%nat.
Proof.
  unfold keep_token. rewrite andb_True, negb_True, bool_decide_spec.
  now rewrite Is_true_true, Nat.ltb_lt.
Qed.

Lemma for_list_lemmatize_value (tokens : list string) :
  value (for_list call_lemmatize tokens) = map lemmatize tokens.
Proof. induction tokens as [|t l IH]; cbn; [reflexivity | now rewrite IH]. Qed.

Lemma for_list_lemmatize_calls (tokens : list string) :
  calls (for_list call_lemmatize tokens) = map Lemmatize tokens.
Proof.
  induction tokens as [|t l IH]; cbn; [reflexivity |].
  now rewrite IH, app_nil_r.
Qed.

Lemma preprocess_value (text : string) :
  value (preprocess text) =
    if truthy text
    then join " " (map lemmatize
                     (filter keep_token (word_tokenize (sub_nonword (lower text)))))
    else "".
Proof.
  unfold preprocess. destruct (truthy text); cbn; [| reflexivity].
  now rewrite for_list_lemmatize_value.
Qed.

Lemma preprocess_calls (text : string) :
  calls (preprocess text) =
    if truthy text
    then Tokenize (sub_nonword (lower text))
           :: map Lemmatize (filter keep_token (word_tokenize (sub_nonword (lower text))))
    else [].
Proof.
  unfold preprocess. destruct (truthy text); cbn; [| reflexivity].
  now rewrite for_list_lemmatize_calls, app_nil_r.
Qed.

(** C6, as the code has it: on the empty text [preprocess] returns the
    empty string at once and calls neither the tokenizer nor the
    lemmatizer.  Otherwise the tokenizer receives the lowercased text with
    every run of non-word characters replaced by a space, which is entirely
    lowercase; the tokens that are not stop words and are longer than one
    character are kept, in tokenization order; the output is the lemmas of
    the kept tokens in that order, joined by single spaces.  The lemmas are
    not filtered again: the output is free of stop words and of short
    tokens only as far as the lemmatizer gives none, and it is lowercase
    whenever the lemmas are. *)
Theorem preprocess_output (text : string) :
  (text = "" -> preprocess text = ret "") /\
  (text <> "" ->
   let cleaned := sub_nonword (lower text) in
   let kept := filter keep_token (word_tokenize cleaned) in
   lowercase cleaned /\
   calls (preprocess text) = Tokenize cleaned :: map Lemmatize kept /\
   kept `sublist_of` word_tokenize cleaned /\
   Forall (fun t => (t ∉ stop_words) /\ (1 < len t)%nat) kept /\
   value (preprocess text) = join " " (map lemmatize kept) /\
   (Forall (fun t => lowercase (lemmatize t)) kept -> lowercase (value (preprocess text)))).
Proof.
  split; [now intros -> |].
  intros Htext%truthy_true cleaned kept.
  assert (Hvalue : value (preprocess text) = join " " (map lemmatize kept)).
  { now rewrite preprocess_value, Htext. }
  split; [apply lowercase_cleaned |].
  split; [now rewrite preprocess_calls, Htext |].
  split; [apply sublist_filter |].
  split.
  { apply Forall_forall. intros t [Ht _]%list_elem_of_filter.
    now apply keep_token_spec. }
  split; [exact Hvalue |].
  intros Hlemmas. rewrite Hvalue. apply lowercase_join.
  now apply Forall_fmap.
Qed.

(** *** The orchestrator *)

(** One turn of the loop: a resume without a path leaves the loop
    variables alone; any other appends one entry, under its name, which is
    a success exactly when the resume completes the pipeline, and only
    then is the counter incremented. *)
Lemma process_resume_step (jd_processed : string) (results_list : list entry)
    (valid_resumes_count : nat) (resume_file : gmap string string) :
  exists entries,
    value (process_resume jd_processed (results_list, valid_resumes_count) resume_file)
      = ((results_list ++ entries)%list,
         (valid_resumes_count + Nat.b2n (completes resume_file))%nat) /\
    map entry_resume entries
      = (if has_path resume_file then [resume_name resume_file] else []) /\
    map entry_ok entries
      = (if has_path resume_file then [completes resume_file] else []).
Proof.
  unfold process_resume, completes, has_path, resume_name.
  destruct (resume_file !! "path") as [file_path|] eqn:Hpath; cbn -[preprocess extract_text_from_pdf calculate_similarity analyze_skills].
  2:{ exists []. rewrite app_nil_r, Nat.add_0_r. auto. }
  destruct (value (extract_text_from_pdf file_path)) as [raw|];
    cbn -[preprocess extract_text_from_pdf calculate_similarity analyze_skills].
  2:{ eexists [_]. rewrite Nat.add_0_r. split; [reflexivity |]. split; reflexivity. }
  destruct (truthy raw); cbn -[preprocess extract_text_from_pdf calculate_similarity analyze_skills].
  2:{ eexists [_]. rewrite Nat.add_0_r. split; [reflexivity |]. split; reflexivity. }
  destruct (truthy (value (preprocess raw)));
    cbn -[preprocess extract_text_from_pdf calculate_similarity analyze_skills].
  2:{ eexists [_]. rewrite Nat.add_0_r. split; [reflexivity |]. split; reflexivity. }
  destruct (value (analyze_skills jd_processed (value (preprocess raw))))
    as [[strengths missing] feedback];
    cbn -[preprocess extract_text_from_pdf calculate_similarity analyze_skills].
  eexists [_]. rewrite Nat.add_1_r. split; [reflexivity |]. split; reflexivity.
Qed.

Lemma for_each_process_resume (jd_processed : string)
    (resume_files : list (gmap string string)) (results_list : list entry)
    (valid_resumes_count : nat) :
  exists entries,
    value (for_each (process_resume jd_processed) resume_files
             (results_list, valid_resumes_count))
      = ((results_list ++ entries)%list,
         (valid_resumes_count + length (filter completes resume_files))%nat) /\
    map entry_resume entries = map resume_name (filter has_path resume_files) /\
    map entry_ok entries = map completes (filter has_path resume_files).
Proof.
  revert results_list valid_resumes_count.
  induction resume_files as [|resume_file rest IH]; intros results_list valid_resumes_count.
  { exists []. cbn. rewrite app_nil_r, Nat.add_0_r. auto. }
  destruct (process_resume_step jd_processed results_list valid_resumes_count resume_file)
    as (es & Hstep & Hnames & Hoks).
  change (value (for_each (process_resume jd_processed) (resume_file :: rest)
                   (results_list, valid_resumes_count)))
    with (value (for_each (process_resume jd_processed) rest
                   (value (process_resume jd_processed
                             (results_list, valid_resumes_count) resume_file)))).
  rewrite Hstep.
  destruct (IH (results_list ++ es)%list
              (valid_resumes_count + Nat.b2n (completes resume_file))%nat)
    as (es' & Hloop & Hnames' & Hoks').
  exists (es ++ es')%list. rewrite Hloop, !map_app, Hnames, Hoks, Hnames', Hoks'.
  rewrite !filter_cons, app_assoc.
  split; [| split].
  - f_equal. destruct (decide (completes resume_file)) as [Hc|Hc].
    + apply Is_true_true in Hc. rewrite Hc. simpl. lia.
    + apply Is_true_false in Hc. rewrite Hc. simpl. lia.
  - destruct (decide (has_path resume_file)) as [Hp|Hp].
    + apply Is_true_true in Hp. now rewrite Hp.
    + apply Is_true_false in Hp. now rewrite Hp.
  - destruct (decide (has_path resume_file)) as [Hp|Hp].
    + apply Is_true_true in Hp. now rewrite Hp.
    + apply Is_true_false in Hp. now rewrite Hp.
Qed.

Lemma analyze_loop_value (jd_processed : string) (resume_files : list (gmap string string)) :
  snd (value (analyze_loop jd_processed resume_files))
    = length (filter completes resume_files) /\
  map entry_resume (fst (value (analyze_loop jd_processed resume_files)))
    = map resume_name (filter has_path resume_files) /\
  map entry_ok (fst (value (analyze_loop jd_processed resume_files)))
    = map completes (filter has_path resume_files).
Proof.
  unfold analyze_loop.
  destruct (for_each_process_resume jd_processed resume_files [] 0%nat)
    as (es & -> & Hnames & Hoks).
  auto.
Qed.

Lemma filter_completes_length (resume_files : list (gmap string string)) :
  length (filter completes resume_files) = 0%nat
  <-> ~ Exists (fun resume_file => completes resume_file = true) resume_files.
Proof.
  rewrite length_zero_iff_nil, Exists_exists. split.
  - intros Hnil (resume_file & Hin & Hc).
    apply (filter_nil_not_elem_of _ _ resume_file Hnil); [now apply Is_true_true | exact Hin].
  - intros Hnone. destruct (filter completes resume_files) as [|resume_file l] eqn:Hf;
      [reflexivity |].
    exfalso. apply Hnone. exists resume_file.
    assert (Hin : resume_file ∈ filter completes resume_files)
      by (rewrite Hf; apply list_elem_of_here).
    apply list_elem_of_filter in Hin as [Hc Hin]. now apply Is_true_true in Hc.
Qed.

Lemma filter_completes_pos (resume_files : list (gmap string string)) :
  length (filter completes resume_files) <> 0%nat ->
  Exists (fun resume_file => completes resume_file = true) resume_files.
Proof.
  destruct (filter completes resume_files) as [|resume_file l] eqn:Hf; [easy | intros _].
  assert (Hin : resume_file ∈ filter completes resume_files)
    by (rewrite Hf; apply list_elem_of_here).
  apply list_elem_of_filter in Hin as [Hc Hin].
  apply Exists_exists. exists resume_file. split; [exact Hin | now apply Is_true_true].
Qed.

Lemma jsonify_error (msg : string) :
  jsonify (error_response msg) = Returned (error_response msg).
Proof. reflexivity. Qed.

(** What the request handler hands to [jsonify] once the request has its
    two fields. *)
Lemma analyze_resumes_value (data : request) (files : list (gmap string string))
    (job_description_raw : string) :
  resume_files data = Some files -> files <> [] ->
  job_description data = Some job_description_raw -> job_description_raw <> "" ->
  value (analyze_resumes (Some data)) =
    jsonify
      (let jd_processed := value (preprocess job_description_raw) in
       if negb (truthy jd_processed)
       then error_response "Could not process the job description"
       else
         let loop := value (analyze_loop jd_processed files) in
         if (snd loop =? 0)%nat
         then error_response "No valid resumes could be processed"
         else {| http_code := 200; resp_status := success;
                 resp_message := "Successfully analyzed " ++ pretty (snd loop)
                                   ++ " resume(s)";
                 resp_results := Some (fst loop) |}).
Proof.
  intros Hfiles Hne Hjd Hraw%truthy_true. unfold analyze_resumes.
  rewrite Hfiles, Hjd, Hraw. destruct files as [|resume_file rest]; [congruence |].
  cbn -[preprocess analyze_loop jsonify].
  destruct (truthy (value (preprocess job_description_raw)));
    cbn -[preprocess analyze_loop jsonify]; [| reflexivity].
  destruct (value (analyze_loop (value (preprocess job_description_raw))
                     (resume_file :: rest))) as [results_list valid_resumes_count].
  cbn -[preprocess analyze_loop jsonify].
  destruct (valid_resumes_count =? 0)%nat; reflexivity.
Qed.

Lemma preprocess_never_opens (text : string) :
  Forall (fun c => is_open c = false) (calls (preprocess text)).
Proof.
  rewrite preprocess_calls. destruct (truthy text); [| constructor].
  constructor; [reflexivity |]. apply Forall_fmap, Forall_forall. reflexivity.
Qed.

(** C7: when the job description normalizes to the empty text, the request
    is answered by one batch-level error that carries no per-resume entry,
    and nothing was done for any resume: the only calls made, if any, are
    those of normalizing the job description, and no file was opened. *)
Theorem empty_job_description_fails_fast (data : request) (job_description_raw : string) :
  job_description data = Some job_description_raw ->
  value (preprocess job_description_raw) = "" ->
  let r := analyze_resumes (Some data) in
  (exists answer,
     value r = Returned answer /\
     resp_status answer = error /\
     http_code answer = 400%nat /\
     resp_results answer = None) /\
  (calls r = [] \/ calls r = calls (preprocess job_description_raw)) /\
  Forall (fun c => is_open c = false) (calls r).
Proof.
  intros Hjd Hempty r.
  assert (Hshape : (exists msg, value r = Returned (error_response msg))
                   /\ (calls r = [] \/ calls r = calls (preprocess job_description_raw))).
  { subst r. unfold analyze_resumes. rewrite Hjd.
    destruct (resume_files data) as [[|resume_file rest]|]; cbn -[preprocess]; eauto.
    destruct (truthy job_description_raw); cbn -[preprocess]; eauto.
    rewrite Hempty. cbn -[preprocess]. rewrite app_nil_r. eauto. }
  destruct Hshape as [[msg Hvalue] Hcalls].
  split; [exists (error_response msg); now rewrite Hvalue |].
  split; [exact Hcalls |].
  destruct Hcalls as [-> | ->]; [constructor | apply preprocess_never_opens].
Qed.

(** C4, as the code has it: in a batch whose job description normalizes
    to a non-empty text, a result list that is returned has exactly one
    entry per input resume that carries a [path], in the order of the
    input list; a resume without [path] is skipped and has no entry.
    When no resume completes the pipeline the answer is an error that
    carries no result list at all. *)
Theorem results_follow_resumes_with_path (data : request)
    (files : list (gmap string string)) (job_description_raw : string) :
  resume_files data = Some files ->
  job_description data = Some job_description_raw ->
  value (preprocess job_description_raw) <> "" ->
  (forall answer results_list,
     value (analyze_resumes (Some data)) = Returned answer ->
     resp_results answer = Some results_list ->
     map entry_resume results_list = map resume_name (filter has_path files) /\
     length results_list = length (filter has_path files)) /\
  (~ Exists (fun resume_file => completes resume_file = true) files ->
   exists answer,
     value (analyze_resumes (Some data)) = Returned answer /\
     resp_status answer = error /\
     resp_results answer = None).
Proof.
  intros Hfiles Hjd Hprocessed.
  assert (Hraw : job_description_raw <> "").
  { intros ->. now apply Hprocessed. }
  destruct files as [|resume_file rest].
  { unfold analyze_resumes. rewrite Hfiles. cbn. split.
    - intros answer results_list [= <-]. discriminate.
    - intros _. eexists. split; [reflexivity |]. now cbn. }
  rewrite (analyze_resumes_value data (resume_file :: rest) job_description_raw)
    by (assumption || discriminate).
  cbn zeta. apply truthy_true in Hprocessed. rewrite Hprocessed. cbn [negb].
  destruct (analyze_loop_value (value (preprocess job_description_raw)) (resume_file :: rest))
    as (Hcount & Hnames & _).
  rewrite Hcount.
  destruct (value (analyze_loop (value (preprocess job_description_raw))
                     (resume_file :: rest))) as [produced n].
  cbn [fst snd] in Hnames. cbn [fst snd]. split.
  - intros answer results_list.
    destruct (length (filter completes (resume_file :: rest)) =? 0)%nat.
    + rewrite jsonify_error. intros [= <-]. discriminate.
    + unfold jsonify. cbn [resp_results default from_option id].
      destruct (forallb json_serializable produced); [| discriminate].
      intros [= <-]. cbn [resp_results]. intros [= <-].
      split; [exact Hnames |].
      now rewrite <- (length_map entry_resume), Hnames, length_map.
  - intros Hnone%filter_completes_length. rewrite Hnone. cbn [Nat.eqb].
    rewrite jsonify_error. eexists. split; [reflexivity |]. now cbn.
Qed.



(** *** Rounding in binary64 and in binary32 *)

Lemma digits2_pos_bounds (p : positive) :
  2 ^ (Zpos (digits2_pos p) - 1) <= Zpos p < 2 ^ Zpos (digits2_pos p).
Proof.
  induction p as [p IH|p IH|]; cbn [digits2_pos]; [| | simpl; lia].
  - rewrite Pos2Z.inj_succ.
    replace (Z.succ (Zpos (digits2_pos p)) - 1) with (Z.succ (Zpos (digits2_pos p) - 1)) by lia.
    rewrite !Z.pow_succ_r by lia. lia.
  - rewrite Pos2Z.inj_succ.
    replace (Z.succ (Zpos (digits2_pos p)) - 1) with (Z.succ (Zpos (digits2_pos p) - 1)) by lia.
    rewrite !Z.pow_succ_r by lia. lia.
Qed.

Lemma Zdigits2_upper (m k : Z) : 0 <= m -> 0 <= k -> m < 2 ^ k -> Zdigits2 m <= k.
Proof.
  intros Hm Hk Hlt. destruct m as [|p|p]; [simpl; lia | | lia].
  cbn [Zdigits2]. destruct (digits2_pos_bounds p) as [Hlo _].
  apply Z.nlt_ge. intros Hgt.
  assert (2 ^ k <= 2 ^ (Zpos (digits2_pos p) - 1)) by (apply Z.pow_le_mono_r; lia).
  lia.
Qed.

Lemma Zdigits2_lower (m k : Z) : 0 <= k -> 2 ^ k <= m -> k + 1 <= Zdigits2 m.
Proof.
  intros Hk Hle.
  assert (0 < 2 ^ k) by (apply Z.pow_pos_nonneg; lia).
  destruct m as [|p|p]; [lia | | lia].
  cbn [Zdigits2]. destruct (digits2_pos_bounds p) as [_ Hhi].
  apply Z.nlt_ge. intros Hgt.
  assert (2 ^ Zpos (digits2_pos p) <= 2 ^ k) by (apply Z.pow_le_mono_r; lia).
  lia.
Qed.

Lemma Zdigits2_gt (m : Z) : 0 <= m -> m < 2 ^ Zdigits2 m.
Proof.
  intros Hm. destruct m as [|p|p]; [simpl; lia | | lia].
  apply digits2_pos_bounds.
Qed.

Lemma shr_1_m (mrs : shr_record) : 0 <= shr_m mrs -> shr_m (shr_1 mrs) = shr_m mrs / 2.
Proof.
  destruct mrs as [m r s]. cbn [shr_m]. intros Hm.
  rewrite <- Z.div2_div. destruct m as [|[p|p|]|p]; try reflexivity. lia.
Qed.

Lemma iter_shr_1_m (p : positive) (mrs : shr_record) :
  0 <= shr_m mrs -> shr_m (SpecFloat.iter_pos shr_1 p mrs) = shr_m mrs / 2 ^ Zpos p.
Proof.
  revert mrs. induction p as [p IH|p IH|]; intros mrs Hm; cbn [SpecFloat.iter_pos].
  - assert (H1 : 0 <= shr_m (shr_1 mrs)).
    { rewrite shr_1_m by assumption. apply Z.div_pos; lia. }
    assert (Hp : 0 < 2 ^ Zpos p) by (apply Z.pow_pos_nonneg; lia).
    assert (H2 : 0 <= shr_m (SpecFloat.iter_pos shr_1 p (shr_1 mrs))).
    { rewrite IH by assumption. apply Z.div_pos; lia. }
    rewrite IH, IH, shr_1_m by assumption.
    rewrite !Z.div_div by lia. f_equal.
    replace (Zpos p~1) with (Zpos p + Zpos p + 1) by lia.
    rewrite !Z.pow_add_r by lia. change (2 ^ 1) with 2. lia.
  - assert (Hp : 0 < 2 ^ Zpos p) by (apply Z.pow_pos_nonneg; lia).
    assert (H2 : 0 <= shr_m (SpecFloat.iter_pos shr_1 p mrs)).
    { rewrite IH by assumption. apply Z.div_pos; lia. }
    rewrite IH, IH by assumption.
    rewrite !Z.div_div by lia. f_equal.
    replace (Zpos p~0) with (Zpos p + Zpos p) by lia.
    rewrite !Z.pow_add_r by lia. lia.
  - rewrite shr_1_m by assumption. reflexivity.
Qed.

(** Shifting right by [n] places divides the mantissa by [2 ^ n] and adds
    [n] to the exponent; a shift that is not positive does nothing. *)
Lemma shr_spec (mrs : shr_record) (e n : Z) :
  0 <= shr_m mrs ->
  shr_m (fst (shr mrs e n)) = shr_m mrs / 2 ^ Z.max 0 n /\
  snd (shr mrs e n) = e + Z.max 0 n.
Proof.
  intros Hm. destruct n as [|p|p]; cbn [shr fst snd].
  - rewrite Z.max_id. cbn. rewrite Z.div_1_r. lia.
  - rewrite Z.max_r by lia. split; [now apply iter_shr_1_m | reflexivity].
  - rewrite Z.max_l by lia. cbn. rewrite Z.div_1_r. lia.
Qed.

Lemma shr_fexp_spec (p emx m e : Z) (l : location) :
  0 <= m ->
  let n := Z.max 0 (fexp p emx (Zdigits2 m + e) - e) in
  shr_m (fst (shr_fexp p emx m e l)) = m / 2 ^ n /\
  snd (shr_fexp p emx m e l) = e + n.
Proof.
  intros Hm n. unfold shr_fexp.
  assert (Hrec : shr_m (shr_record_of_loc m l) = m) by (destruct l as [|[]]; reflexivity).
  rewrite <- Hrec at 3. apply shr_spec. now rewrite Hrec.
Qed.

Lemma round_nearest_even_bounds (m : Z) (l : location) :
  m <= round_nearest_even m l <= m + 1.
Proof. destruct l as [|[]]; cbn; try destruct (Z.even m); lia. Qed.

Lemma pos_compare_cont_lt (p q : positive) :
  PosDef.Pos.compare_cont Eq p q = Lt -> Zpos p < Zpos q.
Proof. intros H. apply Pos2Z.pos_lt_pos. exact H. Qed.

(** A positive number that compares below [1.0] has a negative exponent,
    and a mantissa that stays below the weight of the unit. *)
Lemma magnitude_below_one (mx : positive) (ex : Z) :
  magnitude_compare mx ex 4503599627370496 (-52) = Lt ->
  ex < 0 /\ (-52 <= ex -> Zpos mx < 2 ^ (- ex)).
Proof.
  unfold magnitude_compare. cbv zeta. rewrite Z.compare_lt_iff. intros Hlt.
  destruct (Z_lt_le_dec ex (-52)) as [Hl|Hg]; [lia |].
  rewrite Z.min_r in Hlt by lia.
  replace (-52 - -52) with 0 in Hlt by lia.
  rewrite Z.pow_0_r, Z.mul_1_r in Hlt.
  assert (Hpos : 0 < 2 ^ (ex - -52)) by (apply Z.pow_pos_nonneg; lia).
  assert (Hneg : ex < 0).
  { apply Z.nle_gt. intros Hge.
    assert (2 ^ 52 <= 2 ^ (ex - -52)) by (apply Z.pow_le_mono_r; lia).
    change (2 ^ 52) with 4503599627370496 in *.
    assert (1 * 2 ^ (ex - -52) <= Zpos mx * 2 ^ (ex - -52))
      by (apply Z.mul_le_mono_nonneg_r; lia).
    lia. }
  split; [exact Hneg |]. intros _.
  assert (Hsplit : 2 ^ (ex - -52) * 2 ^ (- ex) = 4503599627370496).
  { rewrite <- Z.pow_add_r by lia. replace (ex - -52 + - ex) with 52 by lia. reflexivity. }
  apply Z.nle_gt. intros Hge.
  assert (2 ^ (- ex) * 2 ^ (ex - -52) <= Zpos mx * 2 ^ (ex - -52))
    by (apply Z.mul_le_mono_nonneg_r; lia).
  lia.
Qed.

Lemma ltb_one_finite (x : float) (mx : positive) (ex : Z) :
  bits x = S754_finite false mx ex ->
  ltb x one = true ->
  magnitude_compare mx ex 4503599627370496 (-52) = Lt.
Proof.
  unfold ltb, compare, one. intros ->. cbn [bits].
  destruct (magnitude_compare mx ex 4503599627370496 (-52)); congruence.
Qed.

(** A canonical binary64 number below one has an exponent of at most
    [-53] and a mantissa below [2 ^ 53]. *)
Lemma below_one_shape (mx : positive) (ex : Z) :
  bounded prec emax mx ex = true ->
  magnitude_compare mx ex 4503599627370496 (-52) = Lt ->
  -1074 <= ex <= -53 /\ Zpos mx < 9007199254740992.
Proof.
  intros Hb Hlt.
  apply andb_prop in Hb as [Hcan _]. apply Z.eqb_eq in Hcan.
  unfold fexp, emin, prec, emax in Hcan.
  destruct (digits2_pos_bounds mx) as [Hlo Hhi].
  assert (Hd : Zpos (digits2_pos mx) <= 53) by lia.
  destruct (magnitude_below_one mx ex Hlt) as [Hneg Hsmall].
  assert (Hex : ex <= -53).
  { apply Z.nlt_ge. intros Hgt.
    assert (Hm : Zpos mx < 2 ^ (- ex)) by (apply Hsmall; lia).
    assert (Zpos (digits2_pos mx) <= - ex).
    { apply Z.nlt_ge. intros Hbig.
      assert (2 ^ (- ex) <= 2 ^ (Zpos (digits2_pos mx) - 1))
        by (apply Z.pow_le_mono_r; lia).
      lia. }
    lia. }
  split; [lia |].
  assert (2 ^ Zpos (digits2_pos mx) <= 2 ^ 53) by (apply Z.pow_le_mono_r; lia).
  change (2 ^ 53) with 9007199254740992 in *. lia.
Qed.

(** A canonical binary32 number below one has an exponent of at most
    [-24] and a mantissa below [2 ^ 24]. *)
Lemma below_one_shape32 (mx : positive) (ex : Z) :
  bounded prec32 emax32 mx ex = true ->
  magnitude_compare mx ex 4503599627370496 (-52) = Lt ->
  -149 <= ex <= -24 /\ Zpos mx < 16777216.
Proof.
  intros Hb Hlt.
  apply andb_prop in Hb as [Hcan _]. apply Z.eqb_eq in Hcan.
  unfold fexp, emin, prec32, emax32 in Hcan.
  destruct (digits2_pos_bounds mx) as [Hlo Hhi].
  assert (Hd : Zpos (digits2_pos mx) <= 24) by lia.
  destruct (magnitude_below_one mx ex Hlt) as [Hneg Hsmall].
  assert (Hex : ex <= -24).
  { apply Z.nlt_ge. intros Hgt.
    assert (Hm : Zpos mx < 2 ^ (- ex)) by (apply Hsmall; lia).
    assert (Zpos (digits2_pos mx) <= - ex).
    { apply Z.nlt_ge. intros Hbig.
      assert (2 ^ (- ex) <= 2 ^ (Zpos (digits2_pos mx) - 1))
        by (apply Z.pow_le_mono_r; lia).
      lia. }
    lia. }
  split; [lia |].
  assert (2 ^ Zpos (digits2_pos mx) <= 2 ^ 24) by (apply Z.pow_le_mono_r; lia).
  change (2 ^ 24) with 16777216 in *. lia.
Qed.

(** The product of a binary64 number below one and of [100.0], rounded
    to nearest-even in binary64, is zero or a positive number that is at
    most [100.0]. *)
Lemma mul_hundred_small (mx : positive) (ex : Z) :
  -1074 <= ex <= -53 -> Zpos mx < 9007199254740992 ->
  SFmul prec emax (S754_finite false mx ex) (bits hundred) = S754_zero false \/
  exists m e,
    SFmul prec emax (S754_finite false mx ex) (bits hundred) = S754_finite false m e /\
    (e < -46 /\ Zpos m < 9007199254740992 \/ e = -46 /\ Zpos m <= 7036874417766400).
Proof.
  intros Hex Hmx.
  unfold hundred. cbn [bits SFmul xorb]. unfold binary_round_aux.
  set (P := Zpos (mx * 7036874417766400)).
  set (E := ex + -46).
  assert (HP : P = Zpos mx * 7036874417766400) by (subst P; apply Pos2Z.inj_mul).
  set (T := 2 ^ (- ex)).
  assert (HT : 9007199254740992 <= T).
  { change 9007199254740992 with (2 ^ 53). apply Z.pow_le_mono_r; lia. }
  assert (HdP_lo : 53 <= Zdigits2 P).
  { apply (Zdigits2_lower P 52); [lia |].
    change (2 ^ 52) with 4503599627370496. lia. }
  assert (HdP_hi : Zdigits2 P <= 53 - ex).
  { apply Zdigits2_upper; [lia | lia |].
    replace (53 - ex) with (53 + - ex) by lia. rewrite Z.pow_add_r by lia.
    fold T. change (2 ^ 53) with 9007199254740992. nia. }
  destruct (shr_fexp_spec prec emax P E loc_Exact) as [Hm1 He1]; [lia |].
  destruct (shr_fexp prec emax P E loc_Exact) as [mrs1 e1]. cbn [fst snd] in Hm1, He1.
  unfold fexp, emin, prec, emax in Hm1, He1.
  set (n1 := Z.max 0 (Z.max (Zdigits2 P + E - 53) (3 - 1024 - 53) - E)) in *.
  assert (Hn1 : Zdigits2 P - 53 <= n1 /\ 0 <= n1) by lia.
  assert (He1_range : -1074 <= e1 <= -46) by lia.
  assert (Hpow1 : 0 < 2 ^ n1) by (apply Z.pow_pos_nonneg; lia).
  assert (Hm1_lo : 0 <= shr_m mrs1) by (rewrite Hm1; apply Z.div_pos; lia).
  assert (Hm1_hi : shr_m mrs1 < 9007199254740992).
  { rewrite Hm1. apply Z.div_lt_upper_bound; [lia |].
    assert (HPd := Zdigits2_gt P ltac:(lia)).
    assert (2 ^ Zdigits2 P <= 2 ^ (n1 + 53)) by (apply Z.pow_le_mono_r; lia).
    rewrite Z.pow_add_r in * by lia. change (2 ^ 53) with 9007199254740992 in *. lia. }
  assert (Hm1_top : e1 = -46 -> shr_m mrs1 < 7036874417766400).
  { intros He. assert (Hn : n1 = - ex) by lia.
    rewrite Hm1, Hn. fold T. apply Z.div_lt_upper_bound; nia. }
  set (m2 := round_nearest_even (shr_m mrs1) (loc_of_shr_record mrs1)).
  assert (Hm2 := round_nearest_even_bounds (shr_m mrs1) (loc_of_shr_record mrs1)).
  fold m2 in Hm2.
  destruct (shr_fexp_spec prec emax m2 e1 loc_Exact) as [Hm3 He3]; [lia |].
  destruct (shr_fexp prec emax m2 e1 loc_Exact) as [mrs3 e3]. cbn [fst snd] in Hm3, He3.
  unfold fexp, emin, prec, emax in Hm3, He3.
  set (n2 := Z.max 0 (Z.max (Zdigits2 m2 + e1 - 53) (3 - 1024 - 53) - e1)) in *.
  assert (Hd2 : Zdigits2 m2 <= 54).
  { apply Zdigits2_upper; [lia | lia |]. change (2 ^ 54) with 18014398509481984. lia. }
  assert (Hd2' : m2 < 9007199254740992 -> Zdigits2 m2 <= 53).
  { intros Hlt2. apply Zdigits2_upper; [lia | lia |].
    change (2 ^ 53) with 9007199254740992. lia. }
  assert (Hcases : n2 = 0 /\ shr_m mrs3 = m2 /\ m2 < 9007199254740992
                   \/ n2 = 1 /\ e1 <= -47 /\ shr_m mrs3 <= 4503599627370496
                      /\ 0 <= shr_m mrs3).
  { destruct (Z.eq_dec n2 0) as [Hz|Hnz].
    - left. split; [exact Hz |]. split; [rewrite Hm3, Hz; apply Z.div_1_r |].
      assert (Hg := Zdigits2_gt m2 ltac:(lia)).
      assert (2 ^ Zdigits2 m2 <= 2 ^ 53) by (apply Z.pow_le_mono_r; lia).
      change (2 ^ 53) with 9007199254740992 in *. lia.
    - right. assert (Hone : n2 = 1) by lia.
      assert (Hbig : 9007199254740992 <= m2).
      { apply Z.nlt_ge. intros Hsmall. apply Hd2' in Hsmall. lia. }
      split; [exact Hone |]. split; [lia |].
      rewrite Hm3, Hone. change (2 ^ 1) with 2. split.
      + apply Z.div_le_upper_bound; lia.
      + apply Z.div_pos; lia. }
  assert (Hleb : (e3 <=? 1024 - 53) = true) by (apply Z.leb_le; lia).
  unfold prec, emax.
  destruct (shr_m mrs3) as [|m3|m3] eqn:Hm3v.
  - left. reflexivity.
  - right. rewrite Hleb. exists m3, e3. split; [reflexivity |].
    destruct Hcases as [(Hn2 & Heq & Hlt2) | (Hn2 & He & Hle & _)]; lia.
  - exfalso. destruct Hcases as [(_ & Heq & _) | (_ & _ & _ & Hpos)]; lia.
Qed.

(** The product of a binary32 number below one and of [100.0], rounded
    to nearest-even in binary32, is zero or a positive number that is at
    most [100.0]. *)
Lemma mul_hundred_small32 (mx : positive) (ex : Z) :
  -149 <= ex <= -24 -> Zpos mx < 16777216 ->
  SFmul prec32 emax32 (S754_finite false mx ex) hundred32 = S754_zero false \/
  exists m e,
    SFmul prec32 emax32 (S754_finite false mx ex) hundred32 = S754_finite false m e /\
    (e < -17 /\ Zpos m < 16777216 \/ e = -17 /\ Zpos m <= 13107200).
Proof.
  intros Hex Hmx.
  unfold hundred32. cbn [SFmul xorb]. unfold binary_round_aux.
  set (P := Zpos (mx * 13107200)).
  set (E := ex + -17).
  assert (HP : P = Zpos mx * 13107200) by (subst P; apply Pos2Z.inj_mul).
  set (T := 2 ^ (- ex)).
  assert (HT : 16777216 <= T).
  { change 16777216 with (2 ^ 24). apply Z.pow_le_mono_r; lia. }
  assert (HdP_lo : 24 <= Zdigits2 P).
  { apply (Zdigits2_lower P 23); [lia |].
    change (2 ^ 23) with 8388608. lia. }
  assert (HdP_hi : Zdigits2 P <= 24 - ex).
  { apply Zdigits2_upper; [lia | lia |].
    replace (24 - ex) with (24 + - ex) by lia. rewrite Z.pow_add_r by lia.
    fold T. change (2 ^ 24) with 16777216. nia. }
  destruct (shr_fexp_spec prec32 emax32 P E loc_Exact) as [Hm1 He1]; [lia |].
  destruct (shr_fexp prec32 emax32 P E loc_Exact) as [mrs1 e1]. cbn [fst snd] in Hm1, He1.
  unfold fexp, emin, prec32, emax32 in Hm1, He1.
  set (n1 := Z.max 0 (Z.max (Zdigits2 P + E - 24) (3 - 128 - 24) - E)) in *.
  assert (Hn1 : Zdigits2 P - 24 <= n1 /\ 0 <= n1) by lia.
  assert (He1_range : -149 <= e1 <= -17) by lia.
  assert (Hpow1 : 0 < 2 ^ n1) by (apply Z.pow_pos_nonneg; lia).
  assert (Hm1_lo : 0 <= shr_m mrs1) by (rewrite Hm1; apply Z.div_pos; lia).
  assert (Hm1_hi : shr_m mrs1 < 16777216).
  { rewrite Hm1. apply Z.div_lt_upper_bound; [lia |].
    assert (HPd := Zdigits2_gt P ltac:(lia)).
    assert (2 ^ Zdigits2 P <= 2 ^ (n1 + 24)) by (apply Z.pow_le_mono_r; lia).
    rewrite Z.pow_add_r in * by lia. change (2 ^ 24) with 16777216 in *. lia. }
  assert (Hm1_top : e1 = -17 -> shr_m mrs1 < 13107200).
  { intros He. assert (Hn : n1 = - ex) by lia.
    rewrite Hm1, Hn. fold T. apply Z.div_lt_upper_bound; nia. }
  set (m2 := round_nearest_even (shr_m mrs1) (loc_of_shr_record mrs1)).
  assert (Hm2 := round_nearest_even_bounds (shr_m mrs1) (loc_of_shr_record mrs1)).
  fold m2 in Hm2.
  destruct (shr_fexp_spec prec32 emax32 m2 e1 loc_Exact) as [Hm3 He3]; [lia |].
  destruct (shr_fexp prec32 emax32 m2 e1 loc_Exact) as [mrs3 e3]. cbn [fst snd] in Hm3, He3.
  unfold fexp, emin, prec32, emax32 in Hm3, He3.
  set (n2 := Z.max 0 (Z.max (Zdigits2 m2 + e1 - 24) (3 - 128 - 24) - e1)) in *.
  assert (Hd2 : Zdigits2 m2 <= 25).
  { apply Zdigits2_upper; [lia | lia |]. change (2 ^ 25) with 33554432. lia. }
  assert (Hd2' : m2 < 16777216 -> Zdigits2 m2 <= 24).
  { intros Hlt2. apply Zdigits2_upper; [lia | lia |].
    change (2 ^ 24) with 16777216. lia. }
  assert (Hcases : n2 = 0 /\ shr_m mrs3 = m2 /\ m2 < 16777216
                   \/ n2 = 1 /\ e1 <= -18 /\ shr_m mrs3 <= 8388608
                      /\ 0 <= shr_m mrs3).
  { destruct (Z.eq_dec n2 0) as [Hz|Hnz].
    - left. split; [exact Hz |]. split; [rewrite Hm3, Hz; apply Z.div_1_r |].
      assert (Hg := Zdigits2_gt m2 ltac:(lia)).
      assert (2 ^ Zdigits2 m2 <= 2 ^ 24) by (apply Z.pow_le_mono_r; lia).
      change (2 ^ 24) with 16777216 in *. lia.
    - right. assert (Hone : n2 = 1) by lia.
      assert (Hbig : 16777216 <= m2).
      { apply Z.nlt_ge. intros Hsmall. apply Hd2' in Hsmall. lia. }
      split; [exact Hone |]. split; [lia |].
      rewrite Hm3, Hone. change (2 ^ 1) with 2. split.
      + apply Z.div_le_upper_bound; lia.
      + apply Z.div_pos; lia. }
  assert (Hleb : (e3 <=? 128 - 24) = true) by (apply Z.leb_le; lia).
  unfold prec32, emax32.
  destruct (shr_m mrs3) as [|m3|m3] eqn:Hm3v.
  - left. reflexivity.
  - right. rewrite Hleb. exists m3, e3. split; [reflexivity |].
    destruct Hcases as [(Hn2 & Heq & Hlt2) | (Hn2 & He & Hle & _)]; lia.
  - exfalso. destruct Hcases as [(_ & Heq & _) | (_ & _ & _ & Hpos)]; lia.
Qed.

(** *** The similarity scorer *)

Lemma leb_hundred_py (m : positive) (e : Z) :
  e < -46 /\ Zpos m < 9007199254740992 \/ e = -46 /\ Zpos m <= 7036874417766400 ->
  leb (Py (S754_finite false m e)) hundred = true.
Proof.
  intros H.
  assert (Hle : magnitude_compare m e 7036874417766400 (-46) <> Gt).
  { unfold magnitude_compare. rewrite Z.min_l by lia. apply Z.compare_le_iff.
    rewrite Z.sub_diag, Z.pow_0_r, Z.mul_1_r.
    destruct H as [[He Hm] | [He Hm]].
    - assert (2 ^ 1 <= 2 ^ (-46 - e)) by (apply Z.pow_le_mono_r; lia).
      change (2 ^ 1) with 2 in *. lia.
    - replace (-46 - e) with 0 by lia. rewrite Z.pow_0_r. lia. }
  unfold leb, compare, hundred. cbn [bits].
  destruct (magnitude_compare m e 7036874417766400 (-46)); congruence.
Qed.

Lemma leb_hundred_np32 (m : positive) (e : Z) :
  e < -17 /\ Zpos m < 16777216 \/ e = -17 /\ Zpos m <= 13107200 ->
  leb (Np32 (S754_finite false m e)) hundred = true.
Proof.
  intros H.
  assert (Hle : magnitude_compare m e 7036874417766400 (-46) <> Gt).
  { unfold magnitude_compare. apply Z.compare_le_iff.
    destruct (Z_le_gt_dec e (-46)) as [Hlow|Hhigh].
    - rewrite Z.min_l by lia. rewrite Z.sub_diag, Z.pow_0_r, Z.mul_1_r.
      assert (0 < 2 ^ (-46 - e)) by (apply Z.pow_pos_nonneg; lia). lia.
    - rewrite Z.min_r by lia. replace (-46 - -46) with 0 by lia.
      rewrite Z.pow_0_r, Z.mul_1_r.
      destruct H as [[He Hm] | [He Hm]].
      + assert (2 ^ (e - -46) <= 2 ^ 28) by (apply Z.pow_le_mono_r; lia).
        assert (0 < 2 ^ (e - -46)) by (apply Z.pow_pos_nonneg; lia).
        change (2 ^ 28) with 268435456 in *. nia.
      + replace (e - -46) with 29 by lia. change (2 ^ 29) with 536870912. lia. }
  unfold leb, compare, hundred. cbn [bits].
  destruct (magnitude_compare m e 7036874417766400 (-46)); congruence.
Qed.

(** Clamping to [[0, 1]] and scaling by [100] lands in [[0, 100]],
    whatever well-formed number of either type, infinity or NaN comes in. *)
Lemma clamp_scale_range (similarity : float) :
  valid similarity = true ->
  let r := times_hundred (py_max zero (py_min one similarity)) in
  is_nan r = false /\ leb zero r = true /\ leb r hundred = true.
Proof.
  intros Hvalid r. subst r.
  destruct similarity as [[s|s| |s mx ex] | [s|s| |s mx ex]];
    try (destruct s; vm_compute; auto; fail); try (vm_compute; auto; fail).
  - destruct s; [vm_compute; auto |]. unfold py_min.
    destruct (ltb (Py (S754_finite false mx ex)) one) eqn:Hlt; [| vm_compute; auto].
    replace (py_max zero (Py (S754_finite false mx ex)))
      with (Py (S754_finite false mx ex)) by reflexivity.
    apply (ltb_one_finite (Py (S754_finite false mx ex)) mx ex eq_refl) in Hlt.
    destruct (below_one_shape mx ex Hvalid Hlt) as [Hex Hmx].
    cbn [times_hundred].
    destruct (mul_hundred_small mx ex Hex Hmx) as [-> | (m & e & -> & Hb)];
      [vm_compute; auto |].
    split; [reflexivity |]. split; [reflexivity |]. now apply leb_hundred_py.
  - destruct s; [vm_compute; auto |]. unfold py_min.
    destruct (ltb (Np32 (S754_finite false mx ex)) one) eqn:Hlt; [| vm_compute; auto].
    replace (py_max zero (Np32 (S754_finite false mx ex)))
      with (Np32 (S754_finite false mx ex)) by reflexivity.
    apply (ltb_one_finite (Np32 (S754_finite false mx ex)) mx ex eq_refl) in Hlt.
    destruct (below_one_shape32 mx ex Hvalid Hlt) as [Hex Hmx].
    cbn [times_hundred].
    destruct (mul_hundred_small32 mx ex Hex Hmx) as [-> | (m & e & -> & Hb)];
      [vm_compute; auto |].
    split; [reflexivity |]. split; [reflexivity |]. now apply leb_hundred_np32.
Qed.

Lemma calculate_similarity_value (jd_text resume_text : string) :
  value (calculate_similarity jd_text resume_text) =
    if negb (truthy jd_text) || negb (truthy resume_text) then zero
    else if negb (has_vector (nlp jd_text)) || negb (has_vector (nlp resume_text))
            || falsy (vector_norm (nlp jd_text)) || falsy (vector_norm (nlp resume_text))
    then zero
    else times_hundred
           (py_max zero
              (py_min one (cosine_similarity (vector (nlp jd_text))
                             (vector (nlp resume_text))))).
Proof.
  unfold calculate_similarity.
  destruct (negb (truthy jd_text) || negb (truthy resume_text)); [reflexivity |]. cbn.
  destruct (negb (has_vector (nlp jd_text)) || negb (has_vector (nlp resume_text))
            || falsy (vector_norm (nlp jd_text)) || falsy (vector_norm (nlp resume_text)));
    reflexivity.
Qed.

Lemma calculate_similarity_calls (jd_text resume_text : string) :
  calls (calculate_similarity jd_text resume_text) =
    if negb (truthy jd_text) || negb (truthy resume_text) then []
    else if negb (has_vector (nlp jd_text)) || negb (has_vector (nlp resume_text))
            || falsy (vector_norm (nlp jd_text)) || falsy (vector_norm (nlp resume_text))
    then [Nlp jd_text; Nlp resume_text]
    else [Nlp jd_text; Nlp resume_text;
          Cosine (vector (nlp jd_text)) (vector (nlp resume_text))].
Proof.
  unfold calculate_similarity.
  destruct (negb (truthy jd_text) || negb (truthy resume_text)); [reflexivity |]. cbn.
  destruct (negb (has_vector (nlp jd_text)) || negb (has_vector (nlp resume_text))
            || falsy (vector_norm (nlp jd_text)) || falsy (vector_norm (nlp resume_text)));
    reflexivity.
Qed.

(** C1: [calculate_similarity] returns a number that is not NaN and lies
    between [0.0] and [100.0], for every pair of texts, the empty ones
    included.  When a text is empty, or a document has no vector or a
    vector of norm zero, the result is exactly [0.0] and the cosine, with
    its division by the norms, is not computed.  The cosine that
    scikit-learn returns is taken to be a well-formed number of its
    type, finite, infinite or NaN: a [numpy.float32] on spaCy's vectors,
    whose product by [100] is rounded in binary32, or a binary64
    number. *)
Theorem calculate_similarity_range (jd_text resume_text : string) :
  (forall u v, valid (cosine_similarity u v) = true) ->
  let r := calculate_similarity jd_text resume_text in
  is_nan (value r) = false /\
  leb zero (value r) = true /\
  leb (value r) hundred = true /\
  (jd_text = "" \/ resume_text = ""
   \/ has_vector (nlp jd_text) = false \/ has_vector (nlp resume_text) = false
   \/ falsy (vector_norm (nlp jd_text)) = true
   \/ falsy (vector_norm (nlp resume_text)) = true ->
   value r = zero /\ Forall (fun c => is_cosine c = false) (calls r)).
Proof.
  intros Hvalid r. subst r.
  rewrite calculate_similarity_value, calculate_similarity_calls.
  destruct (negb (truthy jd_text) || negb (truthy resume_text)) eqn:Htexts.
  { repeat split; constructor. }
  destruct (negb (has_vector (nlp jd_text)) || negb (has_vector (nlp resume_text))
            || falsy (vector_norm (nlp jd_text)) || falsy (vector_norm (nlp resume_text)))
    eqn:Hdocs.
  { repeat split; repeat constructor. }
  destruct (clamp_scale_range
              (cosine_similarity (vector (nlp jd_text)) (vector (nlp resume_text)))
              (Hvalid _ _)) as (Hnan & Hlo & Hhi).
  split; [exact Hnan |]. split; [exact Hlo |]. split; [exact Hhi |].
  intros Hguard. exfalso.
  apply orb_false_elim in Htexts as [Hjd Hresume].
  apply orb_false_elim in Hdocs as [Hdocs Hn2].
  apply orb_false_elim in Hdocs as [Hdocs Hn1].
  apply orb_false_elim in Hdocs as [Hv1 Hv2].
  apply negb_false_iff in Hjd, Hresume, Hv1, Hv2.
  destruct Hguard as [-> | [-> | [H | [H | [H | H]]]]]; try discriminate; congruence.
Qed.

(** C2: [calculate_similarity] gives the same score when its two texts
    are exchanged.  The cosine of scikit-learn is taken to be symmetric. *)
Theorem calculate_similarity_symmetric (a b : string) :
  (forall u v, cosine_similarity u v = cosine_similarity v u) ->
  value (calculate_similarity a b) = value (calculate_similarity b a).
Proof.
  intros Hsym. rewrite !calculate_similarity_value.
  rewrite (Hsym (vector (nlp b)) (vector (nlp a))).
  destruct (truthy a), (truthy b); cbn [negb orb]; try reflexivity.
  destruct (has_vector (nlp a)), (has_vector (nlp b)); cbn [negb orb]; try reflexivity;
    destruct (falsy (vector_norm (nlp a))), (falsy (vector_norm (nlp b))); reflexivity.
Qed.

(** *** File names *)

Lemma rsplit1_no_sep (sep : ascii) (s : string) :
  contains sep s = false -> rsplit1 sep s = [s].
Proof.
  induction s as [|c rest IH]; [reflexivity |]. cbn [contains rsplit1].
  intros [Hc Hrest]%orb_false_elim. rewrite (IH Hrest), Hc. reflexivity.
Qed.

Lemma rsplit1_last (sep : ascii) (before after : string) :
  contains sep after = false ->
  rsplit1 sep (before ++ String sep after) = [before; after].
Proof.
  intros Hafter. induction before as [|c before IH]; cbn [String.append rsplit1].
  - now rewrite (rsplit1_no_sep sep after Hafter), Ascii.eqb_refl.
  - now rewrite IH.
Qed.

Lemma contains_split (sep : ascii) (s : string) :
  contains sep s = true ->
  exists before after,
    s = before ++ String sep after /\ contains sep after = false.
Proof.
  induction s as [|c rest IH]; [discriminate |]. cbn [contains]. intros Hc.
  destruct (contains sep rest) eqn:Hrest.
  - destruct (IH eq_refl) as (before & after & -> & Hafter).
    now exists (String c before), after.
  - rewrite orb_false_r in Hc. apply Ascii.eqb_eq in Hc as ->.
    now exists "", rest.
Qed.

Lemma after_last_dot_app (stem extension : string) :
  contains "." extension = false ->
  after_last_dot (stem ++ "." ++ extension) = extension.
Proof.
  intros Hext. unfold after_last_dot.
  change (stem ++ "." ++ extension) with (stem ++ String "." extension).
  now rewrite rsplit1_last.
Qed.

Lemma contains_app (c : ascii) (s1 s2 : string) :
  contains c (s1 ++ s2) = contains c s1 || contains c s2.
Proof.
  induction s1 as [|c1 s1 IH]; cbn [String.append contains]; [reflexivity |].
  now rewrite IH, orb_assoc.
Qed.

Lemma allowed_file_iff (name : string) :
  allowed_file name = true <->
  exists stem extension,
    name = stem ++ "." ++ extension /\
    contains "." extension = false /\
    lower extension = "pdf".
Proof.
  unfold allowed_file. rewrite andb_true_iff, bool_decide_eq_true.
  unfold ALLOWED_EXTENSIONS. rewrite elem_of_singleton. split.
  - intros [(stem & extension & -> & Hext)%contains_split Hlower].
    exists stem, extension. split; [reflexivity |]. split; [exact Hext |].
    rewrite <- Hlower. f_equal. symmetry. now apply after_last_dot_app.
  - intros (stem & extension & -> & Hext & Hlower). split.
    + rewrite contains_app. cbn. now rewrite orb_true_r.
    + rewrite <- Hlower. f_equal. now apply after_last_dot_app.
Qed.

(** X1: [allowed_file] accepts exactly the names whose text after the
    last dot is ["pdf"] in any letter case; a name without a dot is
    refused. *)
Theorem allowed_file_spec (name : string) :
  allowed_file name = true <->
  exists stem extension,
    name = stem ++ "." ++ extension /\
    contains "." extension = false /\
    lower extension = "pdf".
Proof. apply allowed_file_iff. Qed.

Lemma keep_chars_app (keep : ascii -> bool) (s1 s2 : string) :
  keep_chars keep (s1 ++ s2) = keep_chars keep s1 ++ keep_chars keep s2.
Proof.
  induction s1 as [|c s1 IH]; cbn [String.append keep_chars]; [reflexivity |].
  destruct (keep c); cbn [String.append]; now rewrite IH.
Qed.

Lemma contains_keep_chars (keep : ascii -> bool) (c : ascii) (s : string) :
  contains c s = false -> contains c (keep_chars keep s) = false.
Proof.
  induction s as [|c' s IH]; [reflexivity |]. cbn [contains keep_chars].
  intros [Hc Hs]%orb_false_elim. destruct (keep c'); cbn [contains]; rewrite ?Hc; auto.
Qed.

Lemma is_alnum_lower_char (c : ascii) : is_alnum (lower_char c) = is_alnum c.
Proof. destruct c as [[] [] [] [] [] [] [] []]; reflexivity. Qed.

Lemma safe_char_of_lower (c l : ascii) :
  lower_char c = l -> is_alnum l = true -> safe_char c = true.
Proof.
  intros <- Hl. unfold safe_char. now rewrite <- is_alnum_lower_char, Hl.
Qed.

Lemma keep_pdf_extension (extension : string) :
  lower extension = "pdf" -> keep_chars safe_char extension = extension.
Proof.
  destruct extension as [|a [|b [|c [|d rest]]]]; try discriminate.
  cbn [lower]. intros [= Ha Hb Hc].
  cbn [keep_chars].
  rewrite (safe_char_of_lower a _ Ha eq_refl), (safe_char_of_lower b _ Hb eq_refl),
    (safe_char_of_lower c _ Hc eq_refl).
  reflexivity.
Qed.

(** The sanitized name of an accepted file still ends in a dot and an
    extension that lowercases to ["pdf"]: the [else 'pdf'] branch of the
    extension is never taken. *)
Lemma safe_filename_extension (name : string) :
  allowed_file name = true ->
  contains "." (keep_chars safe_char name) = true /\
  lower (after_last_dot (keep_chars safe_char name)) = "pdf".
Proof.
  intros (stem & extension & -> & Hext & Hlower)%allowed_file_iff.
  rewrite !keep_chars_app, (keep_pdf_extension extension Hlower).
  change (keep_chars safe_char ".") with ".". split.
  - rewrite !contains_app. cbn. now rewrite orb_true_r.
  - now rewrite after_last_dot_app.
Qed.

Lemma store_file_accepted (UPLOAD_FOLDER : string) (uuid4_hex : nat -> string)
    (st : upload_state) (file : upload) :
  allowed_file (filename file) = true ->
  store_file UPLOAD_FOLDER uuid4_hex st file =
    {| uploaded_files :=
         uploaded_files st
           ++ [ {| original_name := filename file;
                   stored_name := uuid4_hex (ids_used st) ++ ".pdf";
                   path := path_join UPLOAD_FOLDER (uuid4_hex (ids_used st) ++ ".pdf") |} ];
       saved := saved st
                  ++ [(path_join UPLOAD_FOLDER (uuid4_hex (ids_used st) ++ ".pdf"),
                       content file)];
       ids_used := S (ids_used st) |}.
Proof.
  intros Hallowed. unfold store_file.
  destruct (safe_filename_extension _ Hallowed) as [Hdot Hext].
  rewrite Hallowed, Hdot, Hext.
  assert (Hname : truthy (filename file) = true).
  { destruct (filename file); [discriminate Hallowed | reflexivity]. }
  now rewrite Hname.
Qed.

Lemma store_file_refused (UPLOAD_FOLDER : string) (uuid4_hex : nat -> string)
    (st : upload_state) (file : upload) :
  allowed_file (filename file) = false ->
  store_file UPLOAD_FOLDER uuid4_hex st file = st.
Proof. intros Hrefused. unfold store_file. now rewrite Hrefused, andb_false_r. Qed.

Lemma upload_fold (UPLOAD_FOLDER : string) (uuid4_hex : nat -> string)
    (files : list upload) (st : upload_state) :
  let st' := fold_left (store_file UPLOAD_FOLDER uuid4_hex) files st in
  uploaded_files st'
    = (uploaded_files st
         ++ stored_as UPLOAD_FOLDER uuid4_hex (ids_used st) (accepted_uploads files))%list /\
  map fst (saved st')
    = (map fst (saved st)
         ++ map path (stored_as UPLOAD_FOLDER uuid4_hex (ids_used st)
                        (accepted_uploads files)))%list /\
  map snd (saved st') = (map snd (saved st) ++ map content (accepted_uploads files))%list /\
  ids_used st' = (ids_used st + length (accepted_uploads files))%nat.
Proof.
  revert st. unfold accepted_uploads.
  induction files as [|file files IH]; intros st; cbn [fold_left].
  { cbn. rewrite !app_nil_r, Nat.add_0_r. auto. }
  destruct (allowed_file (filename file)) eqn:Hallowed.
  - rewrite filter_cons_True by exact Hallowed.
    rewrite (store_file_accepted _ _ _ _ Hallowed).
    destruct (IH {| uploaded_files :=
                      uploaded_files st
                        ++ [ {| original_name := filename file;
                                stored_name := uuid4_hex (ids_used st) ++ ".pdf";
                                path := path_join UPLOAD_FOLDER
                                          (uuid4_hex (ids_used st) ++ ".pdf") |} ];
                    saved := saved st
                               ++ [(path_join UPLOAD_FOLDER (uuid4_hex (ids_used st) ++ ".pdf"),
                                    content file)];
                    ids_used := S (ids_used st) |}) as (Hu & Hp & Hc & Hn).
    cbn [uploaded_files saved ids_used] in Hu, Hp, Hc, Hn.
    rewrite Hu, Hp, Hc, Hn. cbn [stored_as map length].
    rewrite !map_app, <- !app_assoc. cbn [map fst snd app path].
    repeat split; lia.
  - rewrite filter_cons_False by (rewrite Hallowed; discriminate).
    rewrite (store_file_refused _ _ _ _ Hallowed). apply IH.
Qed.

Lemma upload_loop_closed (UPLOAD_FOLDER : string) (uuid4_hex : nat -> string)
    (files : list upload) :
  let st := upload_loop UPLOAD_FOLDER uuid4_hex files in
  uploaded_files st = stored_as UPLOAD_FOLDER uuid4_hex 0 (accepted_uploads files) /\
  map fst (saved st) = map path (uploaded_files st) /\
  map snd (saved st) = map content (accepted_uploads files).
Proof.
  destruct (upload_fold UPLOAD_FOLDER uuid4_hex files
              {| uploaded_files := []; saved := []; ids_used := 0 |})
    as (Hu & Hp & Hc & _).
  cbn [uploaded_files saved ids_used map app] in Hu, Hp, Hc.
  unfold upload_loop. cbn zeta. now rewrite Hp, Hc, Hu.
Qed.

(** X2: the upload loop stores every accepted file and no other, in
    upload order: the [k]-th accepted file keeps its original name, is
    stored as the [k]-th identifier followed by [.pdf] whatever its
    original name was, at that name joined to the upload folder, and its
    bytes are what [file.save] writes to that path. *)
Theorem upload_loop_stores (UPLOAD_FOLDER : string) (uuid4_hex : nat -> string)
    (files : list upload) :
  let st := upload_loop UPLOAD_FOLDER uuid4_hex files in
  uploaded_files st = stored_as UPLOAD_FOLDER uuid4_hex 0 (accepted_uploads files) /\
  map fst (saved st) = map path (uploaded_files st) /\
  map snd (saved st) = map content (accepted_uploads files).
Proof. apply upload_loop_closed. Qed.

Lemma stored_as_length (UPLOAD_FOLDER : string) (uuid4_hex : nat -> string) (k : nat)
    (accepted : list upload) :
  length (stored_as UPLOAD_FOLDER uuid4_hex k accepted) = length accepted.
Proof.
  revert k. induction accepted as [|file rest IH]; intros k; cbn; [reflexivity |].
  now rewrite IH.
Qed.

(** X3: what [upload_resumes] answers.  Without the form field, with an
    empty list or with a first part that has no file name, it answers an
    error and writes nothing, whatever the other parts are.  Otherwise
    it writes the accepted files; it answers success, with the stored
    files in upload order and their number in the message, exactly when
    at least one file is accepted, and the error "No valid PDF files were
    uploaded" when none is. *)
Theorem upload_resumes_response (UPLOAD_FOLDER : string) (uuid4_hex : nat -> string)
    (resumes : option (list upload)) :
  let accepted := accepted_uploads (default [] resumes) in
  let stored := stored_as UPLOAD_FOLDER uuid4_hex 0 accepted in
  let answer := upload_resumes UPLOAD_FOLDER uuid4_hex resumes in
  match resumes with
  | None => answer = (upload_error "No resume files provided", [])
  | Some [] => answer = (upload_error "No resume files selected", [])
  | Some (first :: _) =>
      if String.eqb (filename first) ""
      then answer = (upload_error "No resume files selected", [])
      else
        map fst (snd answer) = map path stored /\
        map snd (snd answer) = map content accepted /\
        match accepted with
        | [] => fst answer = upload_error "No valid PDF files were uploaded"
        | _ :: _ =>
            fst answer =
              {| upload_code := 200; upload_status := success;
                 upload_message :=
                   "Successfully uploaded " ++ pretty (length accepted) ++ " resume(s)";
                 upload_files := Some stored |}
        end
  end.
Proof.
  destruct resumes as [[|first rest]|]; cbn [default from_option id]; try reflexivity.
  cbn zeta. unfold upload_resumes.
  destruct (String.eqb (filename first) ""); [reflexivity |].
  destruct (upload_loop_closed UPLOAD_FOLDER uuid4_hex (first :: rest)) as (Hu & Hp & Hc).
  cbn zeta in Hu, Hp, Hc.
  set (st := upload_loop UPLOAD_FOLDER uuid4_hex (first :: rest)) in *.
  set (accepted := accepted_uploads (first :: rest)) in *.
  assert (Hlen : length (uploaded_files st) = length accepted).
  { rewrite Hu. apply stored_as_length. }
  destruct (uploaded_files st) as [|sf sfs] eqn:Hst; cbn [fst snd].
  - rewrite <- Hu. split; [exact Hp |]. split; [exact Hc |].
    destruct accepted; [reflexivity | discriminate Hlen].
  - rewrite <- Hu. split; [exact Hp |]. split; [exact Hc |].
    destruct accepted as [|a acc]; [discriminate Hlen |].
    now rewrite <- Hlen.
Qed.

Lemma length_append (s1 s2 : string) :
  String.length (s1 ++ s2) = (String.length s1 + String.length s2)%nat.
Proof. induction s1 as [|c s1 IH]; cbn; [reflexivity | now rewrite IH]. Qed.

Lemma append_inj_r (s1 s2 t : string) : s1 ++ t = s2 ++ t -> s1 = s2.
Proof.
  revert s2. induction s1 as [|c s1 IH]; intros [|c' s2] H; try reflexivity.
  - apply (f_equal String.length) in H. cbn in H. rewrite length_append in H. lia.
  - apply (f_equal String.length) in H. cbn in H. rewrite length_append in H. lia.
  - cbn in H. injection H as -> H. f_equal. now apply IH.
Qed.

Lemma append_inj_l (s t1 t2 : string) : s ++ t1 = s ++ t2 -> t1 = t2.
Proof.
  induction s as [|c s IH]; cbn; [auto |]. intros H. injection H as H. auto.
Qed.

Lemma path_join_inj (folder a b : string) :
  starts_with_slash a = false -> starts_with_slash b = false ->
  path_join folder a = path_join folder b -> a = b.
Proof.
  unfold path_join. intros -> ->.
  destruct (negb (truthy folder) || ends_with_slash folder).
  - apply append_inj_l.
  - intros H. apply append_inj_l in H. cbn in H. now injection H.
Qed.

Lemma stored_as_names (UPLOAD_FOLDER : string) (uuid4_hex : nat -> string) (k : nat)
    (accepted : list upload) :
  map stored_name (stored_as UPLOAD_FOLDER uuid4_hex k accepted)
    = map (fun i => uuid4_hex i ++ ".pdf") (seq k (length accepted)) /\
  map path (stored_as UPLOAD_FOLDER uuid4_hex k accepted)
    = map (fun i => path_join UPLOAD_FOLDER (uuid4_hex i ++ ".pdf"))
        (seq k (length accepted)).
Proof.
  revert k. induction accepted as [|file rest IH]; intros k; cbn; [auto |].
  destruct (IH (S k)) as [-> ->]. auto.
Qed.

Lemma NoDup_map_seq {A : Type} (f : nat -> A) (k n : nat) :
  (forall i j, (k <= i < k + n)%nat -> (k <= j < k + n)%nat -> f i = f j -> i = j) ->
  NoDup (map f (seq k n)).
Proof.
  revert k. induction n as [|n IH]; intros k Hinj; cbn; [constructor |].
  constructor.
  - intros Hin%list_elem_of_In%in_map_iff. destruct Hin as (j & Hfj & Hj%in_seq).
    symmetry in Hfj. apply Hinj in Hfj; lia.
  - apply IH. intros i j Hi Hj. apply Hinj; lia.
Qed.

(** X4: when the identifiers drawn during a request are pairwise distinct,
    no two stored files of that request share a stored name; when
    moreover no identifier starts with a slash, no two share a path, so
    no upload overwrites another. *)
Theorem upload_names_distinct (UPLOAD_FOLDER : string) (uuid4_hex : nat -> string)
    (files : list upload) :
  let n := length (accepted_uploads files) in
  (forall i j, (i < n)%nat -> (j < n)%nat -> uuid4_hex i = uuid4_hex j -> i = j) ->
  let st := upload_loop UPLOAD_FOLDER uuid4_hex files in
  NoDup (map stored_name (uploaded_files st)) /\
  ((forall i, (i < n)%nat -> starts_with_slash (uuid4_hex i) = false) ->
   NoDup (map path (uploaded_files st))).
Proof.
  intros n Hinj st.
  destruct (upload_loop_closed UPLOAD_FOLDER uuid4_hex files) as (Hu & _ & _).
  cbn zeta in Hu. subst st. rewrite Hu.
  destruct (stored_as_names UPLOAD_FOLDER uuid4_hex 0 (accepted_uploads files)) as [-> ->].
  fold n. split.
  - apply NoDup_map_seq. intros i j Hi Hj H%append_inj_r.
    apply Hinj; [lia | lia | exact H].
  - intros Hslash. apply NoDup_map_seq. intros i j Hi Hj H.
    apply path_join_inj in H.
    + apply append_inj_r in H. apply Hinj; [lia | lia | exact H].
    + specialize (Hslash i ltac:(lia)). destruct (uuid4_hex i); [reflexivity | exact Hslash].
    + specialize (Hslash j ltac:(lia)). destruct (uuid4_hex j); [reflexivity | exact Hslash].
Qed.

(** *** The job-description endpoint *)

Lemma lstrip_all_space (s : string) : all_chars is_space (lstrip s) = all_chars is_space s.
Proof.
  induction s as [|c s IH]; [reflexivity |]. cbn [lstrip all_chars].
  destruct (is_space c) eqn:Hc; [exact IH |]. cbn [all_chars]. now rewrite Hc.
Qed.

Lemma rstrip_empty (s : string) : rstrip s = "" <-> all_chars is_space s = true.
Proof.
  induction s as [|c s IH]; [easy |]. cbn [rstrip all_chars].
  destruct (rstrip s) as [|c' kept].
  - destruct (is_space c); cbn [andb]; [| easy].
    split; [intros _; now apply IH | reflexivity].
  - split; [discriminate |]. intros [_ Hs]%andb_prop. now apply IH in Hs.
Qed.

Lemma strip_empty (s : string) : len (strip s) = 0%nat <-> all_chars is_space s = true.
Proof.
  unfold strip, len. rewrite <- lstrip_all_space, <- rstrip_empty.
  destruct (rstrip (lstrip s)); cbn; split; congruence.
Qed.

(** X5: [submit_job_description] accepts a job description exactly when
    it has a character that is not white space.  An accepted description
    is echoed as it was sent, not stripped, with the fresh identifier;
    a description that is empty or all white space gets the error "Job
    description cannot be empty", and a request without the field the
    error "No job description provided". *)
Theorem submit_job_description_spec (uuid4_hex : string) (data : option request) :
  submit_job_description uuid4_hex data =
    match data ≫= job_description with
    | None => jd_error "No job description provided"
    | Some sent =>
        if all_chars is_space sent
        then jd_error "Job description cannot be empty"
        else {| jd_code := 200; jd_status := success;
                jd_message := "Job description received";
                jd_id := Some uuid4_hex;
                jd_job_description := Some sent |}
    end.
Proof.
  unfold submit_job_description.
  destruct data as [data|]; [| reflexivity]. cbn [mbind option_bind].
  destruct (job_description data) as [sent|]; [| reflexivity].
  destruct (all_chars is_space sent) eqn:Hspace.
  - apply strip_empty in Hspace. rewrite Hspace. now rewrite orb_true_r.
  - assert (Hlen : (len (strip sent) =? 0)%nat = false).
    { apply Nat.eqb_neq. intros H%strip_empty. congruence. }
    rewrite Hlen. destruct sent; [discriminate Hspace | reflexivity].
Qed.

(** *** The skill extractor *)

Lemma is_space_lower_char (c : ascii) : is_space (lower_char c) = is_space c.
Proof. destruct c as [[] [] [] [] [] [] [] []]; reflexivity. Qed.

Lemma flush_lower (cur : string) (acc : list string) :
  flush (lower cur) (map lower acc) = map lower (flush cur acc).
Proof.
  destruct cur as [|c cur]; [reflexivity |]. cbn [lower flush].
  now rewrite map_app.
Qed.

Lemma split_from_lower (cur : string) (acc : list string) (s : string) :
  split_from (lower cur) (map lower acc) (lower s) = map lower (split_from cur acc s).
Proof.
  revert cur acc. induction s as [|c s IH]; intros cur acc; cbn [lower split_from].
  - apply flush_lower.
  - rewrite is_space_lower_char. destruct (is_space c).
    + rewrite flush_lower. apply (IH "").
    + rewrite <- IH, lower_append. reflexivity.
Qed.

Lemma forallb_false {A : Type} (f : A -> bool) (l : list A) :
  forallb f l = false -> Exists (fun x => f x = false) l.
Proof.
  induction l as [|x l IH]; cbn; [discriminate |].
  destruct (f x) eqn:Hx; cbn; [right; auto | left; exact Hx].
Qed.

Lemma split_lower (s : string) : split (lower s) = map lower (split s).
Proof. apply (split_from_lower "" [] s). Qed.

(** X6: every skill that [extract_skills] returns is the lowercased text
    of a noun chunk of the document, is entirely lowercase, is longer
    than two characters, has at most three words, and has a word that is
    not a stop word.  The empty text gives the empty set without any call
    of the model. *)
Theorem extract_skills_invariant (text : string) :
  extract_skills "" = ret ∅ /\
  forall skill, skill ∈ value (extract_skills text) ->
    (exists chunk, In chunk (noun_chunks (nlp text)) /\ skill = lower chunk) /\
    lowercase skill /\
    (2 < len skill)%nat /\
    (length (split skill) <= 3)%nat /\
    Exists (fun token => token ∉ stop_words) (split skill).
Proof.
  split; [reflexivity |]. intros skill. unfold extract_skills.
  destruct (truthy text); cbn [negb]; [| cbn; intros H; now apply not_elem_of_empty in H].
  cbn. rewrite elem_of_filter, elem_of_list_to_set, list_elem_of_In, in_map_iff.
  intros [Hskill (chunk & <- & Hchunk)].
  apply list_elem_of_In, list_elem_of_filter in Hchunk as [Hshort Hchunk].
  apply andb_prop in Hskill as [Hlen Hstop].
  split; [exists chunk; split; [now apply list_elem_of_In | reflexivity] |].
  split; [apply lower_idem |].
  split; [now apply Nat.ltb_lt |].
  split.
  - rewrite split_lower, length_map. apply Is_true_true in Hshort.
    now apply Nat.leb_le.
  - apply negb_true_iff in Hstop. unfold all_stop_words in Hstop.
    apply forallb_false in Hstop.
    apply Exists_exists in Hstop as (token & Hin & Hnot).
    apply Exists_exists. exists token. split; [exact Hin |].
    now apply bool_decide_eq_false in Hnot.
Qed.

(** *** The text handed to the tokenizer *)

Lemma sub_nonword_from_single_spaced (in_run : bool) (s : string) :
  single_spaced in_run (sub_nonword_from in_run s) = true.
Proof.
  revert in_run. induction s as [|c s IH]; intros in_run; cbn [sub_nonword_from];
    [reflexivity |].
  destruct (is_word_char c) eqn:Hc.
  - cbn [single_spaced]. rewrite Hc. apply IH.
  - destruct in_run; [apply IH |].
    cbn [single_spaced]. change (is_word_char " ") with false.
    now rewrite IH.
Qed.

Lemma sub_nonword_from_fixed (in_run : bool) (s : string) :
  single_spaced in_run s = true -> sub_nonword_from in_run s = s.
Proof.
  revert in_run. induction s as [|c s IH]; intros in_run; cbn [single_spaced sub_nonword_from];
    [reflexivity |].
  destruct (is_word_char c).
  - intros H. now rewrite IH.
  - intros [[Hc Hrun]%andb_prop Hs]%andb_prop.
    apply Ascii.eqb_eq in Hc as ->. apply negb_true_iff in Hrun as ->.
    now rewrite IH.
Qed.

(** X7: the text that [preprocess] hands to the tokenizer is made of word
    characters and of single spaces, never two spaces in a row, and
    applying the substitution again changes nothing. *)
Theorem sub_nonword_normal_form (text : string) :
  single_spaced false (sub_nonword text) = true /\
  sub_nonword (sub_nonword text) = sub_nonword text.
Proof.
  assert (H := sub_nonword_from_single_spaced false text).
  split; [exact H |]. now apply sub_nonword_from_fixed.
Qed.

(** *** Saturation of the score *)

(** X8: when both texts are non-empty and both documents have a vector
    of non-zero norm, a cosine that is not below one -- a value of one or
    more, an infinity, and also a NaN -- scores exactly [100.0], and a
    cosine that is below one but not above zero -- zero of either sign or
    a negative value -- scores exactly [+0.0]. *)
Theorem calculate_similarity_saturates (jd_text resume_text : string) :
  jd_text <> "" -> resume_text <> "" ->
  has_vector (nlp jd_text) = true -> has_vector (nlp resume_text) = true ->
  falsy (vector_norm (nlp jd_text)) = false ->
  falsy (vector_norm (nlp resume_text)) = false ->
  let similarity := cosine_similarity (vector (nlp jd_text)) (vector (nlp resume_text)) in
  (ltb similarity one = false ->
   value (calculate_similarity jd_text resume_text) = hundred) /\
  (ltb similarity one = true -> ltb zero similarity = false ->
   value (calculate_similarity jd_text resume_text) = zero).
Proof.
  intros Hjd%truthy_true Hresume%truthy_true Hv1 Hv2 Hn1 Hn2 similarity.
  rewrite calculate_similarity_value, Hjd, Hresume, Hv1, Hv2, Hn1, Hn2.
  cbn [negb orb]. fold similarity. unfold py_min. split.
  - intros ->. reflexivity.
  - intros -> Hzero. unfold py_max. rewrite Hzero. reflexivity.
Qed.

(** *** Resumes are handled one by one *)

Lemma extract_text_truthy (file_path raw : string) :
  value (extract_text_from_pdf file_path) = Some raw -> truthy raw = true.
Proof.
  rewrite extract_text_value.
  destruct (open_pdf file_path) as [pages|]; [| discriminate].
  destruct (existsb page_fails pages); [discriminate |].
  destruct (page_texts pages) as [|t rest] eqn:Htexts; [discriminate |].
  intros [= <-]. now destruct t.
Qed.

(** What one resume yields, stage by stage. *)
Lemma resume_outcome_cases (jd_processed : string) (resume_file : gmap string string) :
  resume_outcome jd_processed resume_file =
    match resume_file !! "path" with
    | None => ([], 0%nat)
    | Some file_path =>
        match value (extract_text_from_pdf file_path) with
        | None =>
            ([ErrorEntry (resume_name resume_file) "Could not extract text from PDF"], 0%nat)
        | Some raw =>
            let processed := value (preprocess raw) in
            if truthy processed
            then
              let skills := value (analyze_skills jd_processed processed) in
              ([SuccessEntry (resume_name resume_file)
                  (round1 (value (calculate_similarity jd_processed processed)))
                  (fst (fst skills)) (snd (fst skills)) (snd skills)], 1%nat)
            else
              ([ErrorEntry (resume_name resume_file) "Could not preprocess resume text"],
               0%nat)
        end
    end.
Proof.
  unfold resume_outcome, process_resume, resume_name.
  destruct (resume_file !! "path") as [file_path|] eqn:Hpath;
    cbn -[preprocess extract_text_from_pdf calculate_similarity analyze_skills];
    [| reflexivity].
  destruct (value (extract_text_from_pdf file_path)) as [raw|] eqn:Hraw;
    cbn -[preprocess extract_text_from_pdf calculate_similarity analyze_skills];
    [| reflexivity].
  rewrite (extract_text_truthy file_path raw Hraw).
  cbn -[preprocess extract_text_from_pdf calculate_similarity analyze_skills].
  destruct (truthy (value (preprocess raw)));
    cbn -[preprocess extract_text_from_pdf calculate_similarity analyze_skills];
    [| reflexivity].
  destruct (value (analyze_skills jd_processed (value (preprocess raw))))
    as [[strengths missing] feedback]. reflexivity.
Qed.

Lemma process_resume_from (jd_processed : string) (results_list : list entry)
    (valid_resumes_count : nat) (resume_file : gmap string string) :
  value (process_resume jd_processed (results_list, valid_resumes_count) resume_file)
    = ((results_list ++ fst (resume_outcome jd_processed resume_file))%list,
       (valid_resumes_count + snd (resume_outcome jd_processed resume_file))%nat).
Proof.
  unfold resume_outcome, process_resume.
  destruct (resume_file !! "path") as [file_path|];
    cbn -[preprocess extract_text_from_pdf calculate_similarity analyze_skills].
  2:{ now rewrite app_nil_r, Nat.add_0_r. }
  destruct (value (extract_text_from_pdf file_path)) as [raw|];
    cbn -[preprocess extract_text_from_pdf calculate_similarity analyze_skills].
  2:{ now rewrite Nat.add_0_r. }
  destruct (truthy raw);
    cbn -[preprocess extract_text_from_pdf calculate_similarity analyze_skills].
  2:{ now rewrite Nat.add_0_r. }
  destruct (truthy (value (preprocess raw)));
    cbn -[preprocess extract_text_from_pdf calculate_similarity analyze_skills].
  2:{ now rewrite Nat.add_0_r. }
  destruct (value (analyze_skills jd_processed (value (preprocess raw))))
    as [[strengths missing] feedback];
    cbn -[preprocess extract_text_from_pdf calculate_similarity analyze_skills].
  now rewrite Nat.add_1_r.
Qed.

Lemma for_each_from (jd_processed : string) (resume_files : list (gmap string string))
    (results_list : list entry) (valid_resumes_count : nat) :
  value (for_each (process_resume jd_processed) resume_files
           (results_list, valid_resumes_count))
    = ((results_list
          ++ concat (map (fun resume_file => fst (resume_outcome jd_processed resume_file))
                       resume_files))%list,
       (valid_resumes_count
          + list_sum (map (fun resume_file => snd (resume_outcome jd_processed resume_file))
                        resume_files))%nat).
Proof.
  revert results_list valid_resumes_count.
  induction resume_files as [|resume_file rest IH]; intros results_list valid_resumes_count.
  { cbn. now rewrite app_nil_r, Nat.add_0_r. }
  change (value (for_each (process_resume jd_processed) (resume_file :: rest)
                   (results_list, valid_resumes_count)))
    with (value (for_each (process_resume jd_processed) rest
                   (value (process_resume jd_processed
                             (results_list, valid_resumes_count) resume_file)))).
  rewrite process_resume_from, IH. cbn [map concat].
  f_equal; [now rewrite <- app_assoc | now rewrite <- Nat.add_assoc].
Qed.

Lemma analyze_loop_closed (jd_processed : string)
    (resume_files : list (gmap string string)) :
  value (analyze_loop jd_processed resume_files)
    = (concat (map (fun resume_file => fst (resume_outcome jd_processed resume_file))
                 resume_files),
       list_sum (map (fun resume_file => snd (resume_outcome jd_processed resume_file))
                   resume_files)).
Proof. unfold analyze_loop. now rewrite for_each_from. Qed.

(** X9: the entry of a resume does not depend on the other resumes of the
    batch.  The result list of a batch that is the concatenation of two
    batches is the concatenation of their result lists, and the counter
    is the sum of their counters; in particular a resume yields in any
    batch what it yields when it is processed alone. *)
Theorem analyze_loop_isolated (jd_processed : string)
    (batch1 batch2 : list (gmap string string)) :
  value (analyze_loop jd_processed (batch1 ++ batch2))
    = ((fst (value (analyze_loop jd_processed batch1))
          ++ fst (value (analyze_loop jd_processed batch2)))%list,
       (snd (value (analyze_loop jd_processed batch1))
          + snd (value (analyze_loop jd_processed batch2)))%nat).
Proof.
  rewrite !analyze_loop_closed. cbn [fst snd].
  rewrite !map_app, concat_app. f_equal.
  unfold list_sum. rewrite fold_right_app.
  induction (map (fun resume_file => snd (resume_outcome jd_processed resume_file)) batch1)
    as [|n l IH]; cbn; [reflexivity | rewrite IH; lia].
Qed.

Lemma loop_entry_cases (jd_processed : string)
    (resume_files : list (gmap string string)) (e : entry) :
  In e (fst (value (analyze_loop jd_processed resume_files))) ->
  exists resume_file file_path,
    In resume_file resume_files /\
    resume_file !! "path" = Some file_path /\
    entry_resume e = resume_name resume_file /\
    match e with
    | ErrorEntry _ message =>
        message = "Could not extract text from PDF"
        /\ value (extract_text_from_pdf file_path) = None
        \/ message = "Could not preprocess resume text"
           /\ exists raw, value (extract_text_from_pdf file_path) = Some raw
                          /\ value (preprocess raw) = ""
    | SuccessEntry _ match_score key_strengths missing_skills feedback =>
        exists raw,
          value (extract_text_from_pdf file_path) = Some raw /\
          value (preprocess raw) <> "" /\
          match_score
            = round1 (value (calculate_similarity jd_processed (value (preprocess raw)))) /\
          (key_strengths, missing_skills, feedback)
            = value (analyze_skills jd_processed (value (preprocess raw)))
    end.
Proof.
  rewrite analyze_loop_closed. cbn [fst].
  intros (entries & Hentries & He)%in_concat.
  apply in_map_iff in Hentries as (resume_file & <- & Hfile).
  rewrite resume_outcome_cases in He.
  destruct (resume_file !! "path") as [file_path|] eqn:Hpath; [| destruct He].
  exists resume_file, file_path. split; [exact Hfile |]. split; [exact Hpath |].
  destruct (value (extract_text_from_pdf file_path)) as [raw|] eqn:Hraw.
  - cbn zeta in He.
    destruct (truthy (value (preprocess raw))) eqn:Hprocessed;
      destruct He as [<- | []]; (split; [reflexivity |]).
    + exists raw. split; [reflexivity |]. split; [now apply truthy_true |].
      split; [reflexivity |].
      now destruct (value (analyze_skills jd_processed (value (preprocess raw))))
        as [[? ?] ?].
    + right. split; [reflexivity |]. exists raw. split; [reflexivity |].
      now apply truthy_false.
  - destruct He as [<- | []]. split; [reflexivity |]. left. split; reflexivity.
Qed.

(** X10: every entry of the result list belongs to an input resume that
    has a [path] and is reported under that resume's name.  An error
    entry carries one of two messages, which tells the stage that failed:
    "Could not extract text from PDF" when no text comes out of the file,
    "Could not preprocess resume text" when text comes out and normalizes
    to nothing.  A success entry carries the rounded score and the skill
    lists of the normalized text. *)
Theorem entries_tell_the_stage (jd_processed : string)
    (resume_files : list (gmap string string)) (e : entry) :
  In e (fst (value (analyze_loop jd_processed resume_files))) ->
  exists resume_file file_path,
    In resume_file resume_files /\
    resume_file !! "path" = Some file_path /\
    entry_resume e = resume_name resume_file /\
    match e with
    | ErrorEntry _ message =>
        message = "Could not extract text from PDF"
        /\ value (extract_text_from_pdf file_path) = None
        \/ message = "Could not preprocess resume text"
           /\ exists raw, value (extract_text_from_pdf file_path) = Some raw
                          /\ value (preprocess raw) = ""
    | SuccessEntry _ match_score key_strengths missing_skills feedback =>
        exists raw,
          value (extract_text_from_pdf file_path) = Some raw /\
          value (preprocess raw) <> "" /\
          match_score
            = round1 (value (calculate_similarity jd_processed (value (preprocess raw)))) /\
          (key_strengths, missing_skills, feedback)
            = value (analyze_skills jd_processed (value (preprocess raw)))
    end.
Proof. apply loop_entry_cases. Qed.

(** *** What a consumer of the results can rely on *)

Lemma calculate_similarity_bounds (jd_text resume_text : string) :
  (forall u v, valid (cosine_similarity u v) = true) ->
  is_nan (value (calculate_similarity jd_text resume_text)) = false /\
  leb zero (value (calculate_similarity jd_text resume_text)) = true /\
  leb (value (calculate_similarity jd_text resume_text)) hundred = true.
Proof.
  intros Hvalid. rewrite calculate_similarity_value.
  destruct (negb (truthy jd_text) || negb (truthy resume_text)); [now cbn |].
  destruct (negb (has_vector (nlp jd_text)) || negb (has_vector (nlp resume_text))
            || falsy (vector_norm (nlp jd_text)) || falsy (vector_norm (nlp resume_text)));
    [now cbn |].
  apply clamp_scale_range, Hvalid.
Qed.

Lemma analyze_skills_lengths (jd_processed resume_processed : string) :
  (length (fst (fst (value (analyze_skills jd_processed resume_processed)))) <= 10)%nat /\
  (length (snd (fst (value (analyze_skills jd_processed resume_processed)))) <= 10)%nat.
Proof.
  rewrite analyze_skills_value. cbn zeta.
  destruct (bool_decide (value (extract_skills jd_processed) = ∅)); cbn [fst snd length].
  - lia.
  - rewrite !length_take. unfold MAX_SKILLS_DISPLAY. lia.
Qed.

(** X11: every success entry of the result list has at most ten key
    strengths and at most ten missing skills, and its score is the
    rounding of a number that is not NaN and lies between [0.0] and
    [100.0], in binary32 when the cosine is a [numpy.float32].  The
    cosine of scikit-learn is taken to return a well-formed number of its
    type. *)
Theorem success_entries_bounded (jd_processed : string)
    (resume_files : list (gmap string string))
    (resume : string) (match_score : float) (key_strengths missing_skills : list string)
    (feedback : string) :
  (forall u v, valid (cosine_similarity u v) = true) ->
  In (SuccessEntry resume match_score key_strengths missing_skills feedback)
     (fst (value (analyze_loop jd_processed resume_files))) ->
  (length key_strengths <= 10)%nat /\
  (length missing_skills <= 10)%nat /\
  exists score,
    match_score = round1 score /\
    is_nan score = false /\ leb zero score = true /\ leb score hundred = true.
Proof.
  intros Hvalid He.
  apply loop_entry_cases in He as (resume_file & file_path & _ & _ & _ & raw & _ & _ & -> & Hskills).
  destruct (analyze_skills_lengths jd_processed (value (preprocess raw))) as [Hs Hm].
  rewrite <- Hskills in Hs, Hm. cbn [fst snd] in Hs, Hm.
  split; [exact Hs |]. split; [exact Hm |].
  eexists. split; [reflexivity |]. now apply calculate_similarity_bounds.
Qed.

(** *** Which files are opened *)

Lemma filter_no_open (l : list call) :
  Forall (fun c => is_open c = false) l -> List.filter is_open l = [].
Proof.
  induction 1 as [|c l Hc _ IH]; [reflexivity |]. cbn. now rewrite Hc.
Qed.

Lemma extract_skills_never_opens (text : string) :
  Forall (fun c => is_open c = false) (calls (extract_skills text)).
Proof.
  unfold extract_skills. destruct (truthy text); cbn; repeat constructor.
Qed.

Lemma analyze_skills_never_opens (jd_processed resume_processed : string) :
  Forall (fun c => is_open c = false) (calls (analyze_skills jd_processed resume_processed)).
Proof.
  unfold analyze_skills.
  change (calls (bind ?m ?k)) with (calls m ++ calls (k (value m)))%list.
  apply Forall_app. split; [apply extract_skills_never_opens |].
  change (calls (bind ?m ?k)) with (calls m ++ calls (k (value m)))%list.
  apply Forall_app. split; [apply extract_skills_never_opens |].
  destruct (bool_decide (value (extract_skills jd_processed) = ∅)); constructor.
Qed.

Lemma calculate_similarity_never_opens (jd_text resume_text : string) :
  Forall (fun c => is_open c = false) (calls (calculate_similarity jd_text resume_text)).
Proof.
  rewrite calculate_similarity_calls.
  destruct (negb (truthy jd_text) || negb (truthy resume_text)); [constructor |].
  destruct (negb (has_vector (nlp jd_text)) || negb (has_vector (nlp resume_text))
            || falsy (vector_norm (nlp jd_text)) || falsy (vector_norm (nlp resume_text)));
    repeat constructor.
Qed.

Lemma process_resume_opens (jd_processed : string) (st : list entry * nat)
    (resume_file : gmap string string) :
  List.filter is_open (calls (process_resume jd_processed st resume_file))
    = match resume_file !! "path" with
      | Some file_path => [OpenPdf file_path]
      | None => []
      end.
Proof.
  destruct st as [results_list valid_resumes_count]. unfold process_resume.
  destruct (resume_file !! "path") as [file_path|]; [| reflexivity].
  change (calls (bind ?m ?k)) with (calls m ++ calls (k (value m)))%list.
  rewrite List.filter_app.
  change (calls (extract_text_from_pdf file_path))
    with (OpenPdf file_path :: calls (match read_pdf file_path with
                                      | Raised => ret None
                                      | Returned text =>
                                          if negb (truthy text) then ret None
                                          else ret (Some text)
                                      end)).
  assert (Hextract : calls (match read_pdf file_path with
                            | Raised => ret None
                            | Returned text =>
                                if negb (truthy text) then ret None else ret (Some text)
                            end) = []).
  { destruct (read_pdf file_path) as [text|]; [destruct (negb (truthy text)) |]; reflexivity. }
  rewrite Hextract. cbn [List.filter is_open app]. f_equal.
  apply filter_no_open.
  destruct (value (extract_text_from_pdf file_path)) as [raw|]; [| constructor].
  destruct (negb (truthy raw)); [constructor |].
  change (calls (bind ?m ?k)) with (calls m ++ calls (k (value m)))%list.
  apply Forall_app. split; [apply preprocess_never_opens |].
  destruct (negb (truthy (value (preprocess raw)))); [constructor |].
  change (calls (bind ?m ?k)) with (calls m ++ calls (k (value m)))%list.
  apply Forall_app. split; [apply calculate_similarity_never_opens |].
  change (calls (bind ?m ?k)) with (calls m ++ calls (k (value m)))%list.
  apply Forall_app. split; [apply analyze_skills_never_opens |].
  destruct (value (analyze_skills jd_processed (value (preprocess raw)))) as [[? ?] ?].
  constructor.
Qed.

(** X12: the loop opens the file of every resume that has a [path], once
    each and in the order of the batch, and opens nothing else: a resume
    that fails does not keep the following ones from being read. *)
Theorem analyze_loop_opens (jd_processed : string)
    (resume_files : list (gmap string string)) :
  List.filter is_open (calls (analyze_loop jd_processed resume_files))
    = map OpenPdf (omap (fun resume_file => resume_file !! "path") resume_files).
Proof.
  unfold analyze_loop. generalize (([] : list entry), 0%nat).
  induction resume_files as [|resume_file rest IH]; intros st; [reflexivity |].
  cbn [for_each].
  change (calls (bind ?m ?k)) with (calls m ++ calls (k (value m)))%list.
  rewrite List.filter_app, process_resume_opens, IH. cbn [omap list_omap].
  destruct (resume_file !! "path"); reflexivity.
Qed.

(** *** The response as a whole *)

Lemma completes_has_path (resume_file : gmap string string) :
  completes resume_file = true -> has_path resume_file = true.
Proof.
  unfold completes, has_path. destruct (resume_file !! "path"); [| discriminate].
  intros _. apply bool_decide_eq_true. eauto.
Qed.

Lemma count_completes (resume_files : list (gmap string string)) :
  length (filter completes resume_files)
    = length (List.filter (fun ok : bool => ok) (map completes (filter has_path resume_files))).
Proof.
  induction resume_files as [|resume_file rest IH]; [reflexivity |].
  destruct (completes resume_file) eqn:Hc.
  - rewrite (filter_cons_True completes) by now rewrite Hc.
    rewrite (filter_cons_True has_path) by now rewrite (completes_has_path _ Hc).
    cbn. now rewrite Hc, IH.
  - rewrite (filter_cons_False completes) by now rewrite Hc.
    destruct (has_path resume_file) eqn:Hp.
    + rewrite (filter_cons_True has_path) by now rewrite Hp.
      cbn. now rewrite Hc.
    + now rewrite (filter_cons_False has_path) by now rewrite Hp.
Qed.

Lemma filter_map_ok {A : Type} (f : A -> bool) (l : list A) :
  length (List.filter (fun ok : bool => ok) (map f l)) = length (List.filter f l).
Proof. induction l as [|x l IH]; cbn; [reflexivity |]. destruct (f x); cbn; now rewrite IH. Qed.

(** X13: for every JSON body of the modelled shape, the handler either
    returns a response or raises while serializing it.  A response that
    is returned is a success exactly when its HTTP code is 200 and
    exactly when it carries a result list; every other response is an
    error with code 400.  A result list that is returned has at least
    one success entry, all its entries can be serialized, and the message
    gives the number of its success entries.  The handler raises only
    after the loop has run, on a list with an entry whose score cannot be
    serialized. *)
Theorem analyze_resumes_response (data : option request) :
  match value (analyze_resumes data) with
  | Returned r =>
      (resp_status r = success /\ http_code r = 200%nat /\
       exists results_list,
         resp_results r = Some results_list /\
         forallb json_serializable results_list = true /\
         (0 < length (List.filter entry_ok results_list))%nat /\
         resp_message r = "Successfully analyzed "
                            ++ pretty (length (List.filter entry_ok results_list))
                            ++ " resume(s)")
      \/ (resp_status r = error /\ http_code r = 400%nat /\ resp_results r = None)
  | Raised =>
      exists request_data files job_description_raw,
        data = Some request_data /\
        resume_files request_data = Some files /\
        job_description request_data = Some job_description_raw /\
        Exists (fun e => json_serializable e = false)
          (fst (value (analyze_loop (value (preprocess job_description_raw)) files)))
  end.
Proof.
  destruct data as [data|]; [| right; now cbn].
  destruct (resume_files data) as [[|resume_file rest]|] eqn:Hfiles;
    try (unfold analyze_resumes; rewrite Hfiles; right; now cbn).
  destruct (job_description data) as [job_description_raw|] eqn:Hjd;
    [| unfold analyze_resumes; rewrite Hfiles, Hjd; right; now cbn].
  destruct (truthy job_description_raw) eqn:Hraw;
    [| unfold analyze_resumes; rewrite Hfiles, Hjd, Hraw; right; now cbn].
  rewrite (analyze_resumes_value data (resume_file :: rest) job_description_raw Hfiles)
    by (try discriminate; try assumption; now apply truthy_true).
  cbn zeta.
  destruct (truthy (value (preprocess job_description_raw))); cbn [negb]; [| right; now cbn].
  destruct (analyze_loop_value (value (preprocess job_description_raw)) (resume_file :: rest))
    as (Hcount & _ & Hoks).
  assert (Hsame : snd (value (analyze_loop (value (preprocess job_description_raw))
                                (resume_file :: rest)))
                  = length (List.filter entry_ok
                              (fst (value (analyze_loop (value (preprocess job_description_raw))
                                             (resume_file :: rest)))))).
  { now rewrite Hcount, count_completes, <- Hoks, filter_map_ok. }
  destruct (value (analyze_loop (value (preprocess job_description_raw))
                     (resume_file :: rest))) as [results_list n] eqn:Hloop.
  cbn [fst snd] in Hsame. cbn [fst snd].
  destruct (Nat.eqb_spec n 0) as [Hzero|Hpos]; [right; now cbn |].
  unfold jsonify. cbn [resp_results default from_option id].
  destruct (forallb json_serializable results_list) eqn:Hser.
  - left. cbn [resp_status http_code resp_results resp_message].
    split; [reflexivity |]. split; [reflexivity |].
    exists results_list. split; [reflexivity |]. split; [exact Hser |].
    rewrite <- Hsame. split; [lia | reflexivity].
  - exists data, (resume_file :: rest), job_description_raw.
    split; [reflexivity |]. split; [exact Hfiles |]. split; [exact Hjd |].
    rewrite Hloop. now apply forallb_false.
Qed.

(** *** Coverage of the job description *)

(** X14: when the job description has skills and the resume has them all,
    [analyze_skills] reports no missing skill and says that all key skill
    areas are covered; the strengths are then skills of the job
    description.  [list] on a set is only assumed to list members of the
    set. *)
Theorem analyze_skills_full_coverage (jd_processed resume_processed : string) :
  (forall (s : gset string) (x : string), x ∈ list_of_set s -> x ∈ s) ->
  value (extract_skills jd_processed) <> ∅ ->
  value (extract_skills jd_processed) ⊆ value (extract_skills resume_processed) ->
  let strengths := list_of_set (value (extract_skills jd_processed)) in
  value (analyze_skills jd_processed resume_processed)
    = (take 10 strengths, [],
       "Candidate shows strength in " ++ pretty (length strengths)
         ++ " key areas. Covers all key skill areas identified.").
Proof.
  drop_unused. intros Hlist Hjd Hsub strengths.
  unfold analyze_skills. cbn -[String.append pretty].
  rewrite bool_decide_eq_false_2 by exact Hjd.
  assert (Hinter : value (extract_skills jd_processed) ∩ value (extract_skills resume_processed)
                   = value (extract_skills jd_processed)).
  { apply set_eq. intros x. rewrite elem_of_intersection. split; [tauto |]. auto. }
  assert (Hdiff : list_of_set (value (extract_skills jd_processed)
                               ∖ value (extract_skills resume_processed)) = []).
  { destruct (list_of_set (value (extract_skills jd_processed)
                            ∖ value (extract_skills resume_processed)))
      as [|x l] eqn:Hl; [reflexivity |]. exfalso.
    assert (Hx : x ∈ value (extract_skills jd_processed)
                       ∖ value (extract_skills resume_processed)).
    { apply Hlist. rewrite Hl. apply list_elem_of_here. }
    apply elem_of_difference in Hx as [Hx Hnot]. auto. }
  rewrite Hinter, Hdiff. fold strengths. unfold MAX_SKILLS_DISPLAY.
  now rewrite !append_assoc.
Qed.

(** *** File names of the entries *)

Lemma basename_from_no_slash (cur name : string) :
  contains "/" name = false -> basename_from cur name = cur ++ name.
Proof.
  revert cur. induction name as [|c name IH]; intros cur; cbn [contains basename_from].
  - intros _. now rewrite append_nil_r.
  - intros [Hc Hname]%orb_false_elim. rewrite Hc, IH by exact Hname.
    now rewrite append_assoc.
Qed.

Lemma basename_from_app (cur directory name : string) :
  contains "/" name = false ->
  basename_from cur (directory ++ String "/" name) = name.
Proof.
  intros Hname. revert cur.
  induction directory as [|c directory IH]; intros cur; cbn [String.append basename_from].
  - change (Ascii.eqb "/" "/") with true. cbn iota. now apply basename_from_no_slash.
  - destruct (Ascii.eqb c "/"); apply IH.
Qed.

(** X15: a resume without [original_name] is reported under the last
    component of its path: for a name without a slash, the base name of
    that name joined to a folder is the name itself, whether or not the
    folder ends with a slash. *)
Theorem basename_path_join (folder name : string) :
  contains "/" name = false ->
  basename (path_join folder name) = name.
Proof.
  intros Hname. unfold basename, path_join.
  assert (Hstart : starts_with_slash name = false).
  { destruct name as [|c name]; [reflexivity |]. cbn in *.
    now apply orb_false_elim in Hname as [-> _]. }
  rewrite Hstart.
  destruct (negb (truthy folder) || ends_with_slash folder) eqn:Hfolder.
  - destruct folder as [|c folder]; [now apply basename_from_no_slash |].
    cbn [truthy negb orb] in Hfolder.
    assert (Hends : forall s, ends_with_slash s = true ->
                              exists directory, s = directory ++ "/").
    { clear. induction s as [|c s IH]; [discriminate |]. cbn [ends_with_slash].
      destruct s as [|c' s'].
      - intros ->%Ascii.eqb_eq. now exists "".
      - intros H. destruct (IH H) as [directory ->]. now exists (String c directory). }
    destruct (Hends _ Hfolder) as [directory ->].
    rewrite append_assoc. cbn [String.append]. now apply basename_from_app.
  - cbn [String.append]. now apply basename_from_app.
Qed.





(** *** From the upload to the analysis *)

Lemma as_resume_file_path (sf : stored_file) :
  as_resume_file sf !! "path" = Some (path sf) /\
  as_resume_file sf !! "original_name" = Some (original_name sf).
Proof. unfold as_resume_file. split; vm_compute; reflexivity. Qed.

Lemma uploaded_batch_names (stored : list stored_file) :
  map resume_name (filter has_path (map as_resume_file stored)) = map original_name stored.
Proof.
  induction stored as [|sf stored IH]; [reflexivity |]. cbn [map].
  destruct (as_resume_file_path sf) as [Hpath Hname].
  rewrite filter_cons_True.
  - cbn [map]. rewrite IH. f_equal; unfold resume_name; now rewrite Hname.
  - unfold has_path. apply Is_true_true, bool_decide_eq_true. rewrite Hpath. eauto.
Qed.

(** X18: when the elements of an upload response are sent back as the
    [resume_files] of an analysis, a result list that is returned has
    exactly one entry per uploaded file, in upload order, each under the
    original name of the file. *)
Theorem upload_then_analyze (stored : list stored_file) (data : request)
    (answer : response) (results_list : list entry) :
  resume_files data = Some (map as_resume_file stored) ->
  value (analyze_resumes (Some data)) = Returned answer ->
  resp_results answer = Some results_list ->
  map entry_resume results_list = map original_name stored.
Proof.
  intros Hfiles Hanswer Hresults.
  destruct (job_description data) as [job_description_raw|] eqn:Hjd.
  2:{ unfold analyze_resumes in Hanswer. rewrite Hfiles, Hjd in Hanswer.
      destruct (map as_resume_file stored); injection Hanswer as <-; discriminate Hresults. }
  destruct (truthy job_description_raw) eqn:Hraw.
  2:{ unfold analyze_resumes in Hanswer. rewrite Hfiles, Hjd, Hraw in Hanswer.
      destruct (map as_resume_file stored); injection Hanswer as <-; discriminate Hresults. }
  destruct (map as_resume_file stored) as [|resume_file rest] eqn:Hbatch.
  { unfold analyze_resumes in Hanswer. rewrite Hfiles in Hanswer.
    injection Hanswer as <-. discriminate Hresults. }
  rewrite (analyze_resumes_value data (resume_file :: rest) job_description_raw Hfiles)
    in Hanswer by (try discriminate; try assumption; now apply truthy_true).
  cbn zeta in Hanswer.
  destruct (truthy (value (preprocess job_description_raw)));
    [| injection Hanswer as <-; discriminate Hresults].
  cbn [negb] in Hanswer.
  destruct (analyze_loop_value (value (preprocess job_description_raw)) (resume_file :: rest))
    as (_ & Hnames & _).
  destruct (value (analyze_loop (value (preprocess job_description_raw))
                     (resume_file :: rest))) as [produced n].
  cbn [fst snd] in Hanswer, Hnames.
  destruct (n =? 0)%nat; [injection Hanswer as <-; discriminate Hresults |].
  unfold jsonify in Hanswer. cbn [resp_results default from_option id] in Hanswer.
  destruct (forallb json_serializable produced); [| discriminate Hanswer].
  injection Hanswer as <-. cbn [resp_results] in Hresults.
  injection Hresults as <-.
  now rewrite Hnames, <- Hbatch, uploaded_batch_names.
Qed.

End Pipeline.


(** ** The definitions at work, and the statements that fail *)

Lemma extract_text_never_empty_witness :
  value (extract_text_from_pdf Sample.open_pdf "/tmp/good.pdf")
    = Some ("Python skills" ++ PyStr.newline ++ "SQL" ++ PyStr.newline) /\
  exists body, "Python skills" ++ PyStr.newline ++ "SQL" ++ PyStr.newline = body ++ PyStr.newline.
Proof.
  split; [reflexivity |].
  apply (extract_text_never_empty Sample.open_pdf "/tmp/good.pdf").
  reflexivity.
Defined.

Lemma extract_text_page_failures_witness :
  existsb page_fails [PageText (Some "Python skills"); PageRaises] = true /\
  value (extract_text_from_pdf Sample.open_pdf "/tmp/page2.pdf") = None.
Proof.
  split; [reflexivity |].
  destruct (extract_text_page_failures Sample.open_pdf "/tmp/page2.pdf")
    as (_ & Hraise & _).
  apply (Hraise [PageText (Some "Python skills"); PageRaises]); reflexivity.
Defined.

(** C5, as the specification states it, fails: the first page of
    [/tmp/page2.pdf] yields text, the extraction of its second page raises,
    and the whole document comes out absent. *)
Lemma page_failure_loses_document :
  ~ (forall file_path pages,
       Sample.open_pdf file_path = Some pages ->
       value (extract_text_from_pdf Sample.open_pdf file_path) = None ->
       page_texts pages = []).
Proof.
  intros H.
  specialize (H "/tmp/page2.pdf" [PageText (Some "Python skills"); PageRaises]
                eq_refl eq_refl).
  discriminate H.
Qed.


Lemma analyze_skills_no_jd_skills_witness :
  value (analyze_skills Sample.nlp Sample.stop_words Sample.list_of_set "the" "python sql")
    = ([], [], "Could not extract skills from Job Description.").
Proof.
  apply (analyze_skills_no_jd_skills Sample.nlp Sample.stop_words Sample.list_of_set).
  vm_compute. reflexivity.
Defined.

Lemma analyze_skills_lists_witness :
  "sql" ∉ snd (fst (value (analyze_skills Sample.nlp Sample.stop_words Sample.list_of_set
                             "python skill sql" "sql docker"))).
Proof.
  destruct (analyze_skills_lists Sample.nlp Sample.stop_words Sample.list_of_set
              "python skill sql" "sql docker") as [Hdisjoint _].
  - intros s x Hx. unfold Sample.list_of_set in Hx. now apply elem_of_elements in Hx.
  - apply Hdisjoint. vm_compute. apply list_elem_of_here.
Defined.


Lemma preprocess_output_witness :
  value (preprocess Sample.stop_words Sample.lemmatize Sample.word_tokenize
           "Contact us for the Python Skills")
    = PyStr.join " " (map Sample.lemmatize ["contact"; "us"; "python"; "skills"]).
Proof.
  destruct (preprocess_output Sample.stop_words Sample.lemmatize Sample.word_tokenize
              "Contact us for the Python Skills") as [_ Hrun].
  destruct Hrun as (_ & _ & _ & _ & Hvalue & _); [discriminate |].
  exact Hvalue.
Defined.

(** C6, as the specification states it, fails: filtering comes before
    lemmatization, and the lemma of a kept token can be a stop word
    (["dos"] gives ["do"]) or a single character (["us"] gives ["u"]). *)
Lemma lemmas_are_not_filtered :
  ~ (forall text t,
       t ∈ PyStr.split (value (preprocess Sample.stop_words Sample.lemmatize
                                 Sample.word_tokenize text)) ->
       t ∉ Sample.stop_words) /\
  ~ (forall text t,
       t ∈ PyStr.split (value (preprocess Sample.stop_words Sample.lemmatize
                                 Sample.word_tokenize text)) ->
       (1 < PyStr.len t)%nat).
Proof.
  split; intros H.
  - apply (H "Dos and donts" "do").
    + vm_compute. apply list_elem_of_here.
    + vm_compute. reflexivity.
  - specialize (H "Contact us" "u").
    assert (Hin : "u" ∈ PyStr.split (value (preprocess Sample.stop_words Sample.lemmatize
                                              Sample.word_tokenize "Contact us"))).
    { vm_compute. apply list_elem_of_further, list_elem_of_here. }
    apply H in Hin. vm_compute in Hin. lia.
Qed.


Lemma empty_job_description_fails_fast_witness :
  exists answer,
    value (analyze_resumes Sample.nlp Sample.stop_words Sample.lemmatize
              Sample.word_tokenize Sample.cosine_similarity Sample.open_pdf
              Sample.round_float Sample.round_float32 Sample.list_of_set
             (Some Sample.stop_word_jd)) = Returned answer /\
    resp_status answer = error /\
    http_code answer = 400%nat /\
    resp_results answer = None.
Proof.
  apply (empty_job_description_fails_fast Sample.nlp Sample.stop_words Sample.lemmatize
           Sample.word_tokenize Sample.cosine_similarity Sample.open_pdf
           Sample.round_float Sample.round_float32
           Sample.list_of_set Sample.stop_word_jd "the and of").
  - reflexivity.
  - vm_compute. reflexivity.
Defined.

Lemma results_follow_resumes_with_path_witness :
  exists answer results_list,
    value (analyze_resumes Sample.nlp Sample.stop_words Sample.lemmatize
              Sample.word_tokenize Sample.cosine_similarity Sample.open_pdf
              Sample.round_float Sample.round_float32 Sample.list_of_set
             (Some Sample.batch)) = Returned answer /\
    resp_results answer = Some results_list /\
    map entry_resume results_list = ["good.pdf"; "lost.pdf"] /\
    length results_list = 2%nat.
Proof.
  destruct (results_follow_resumes_with_path Sample.nlp Sample.stop_words Sample.lemmatize
              Sample.word_tokenize Sample.cosine_similarity Sample.open_pdf
              Sample.round_float Sample.round_float32
              Sample.list_of_set Sample.batch
              [ {[ "path" := "/tmp/good.pdf" ]};
                {[ "original_name" := "cv.pdf" ]};
                {[ "path" := "/tmp/none.pdf"; "original_name" := "lost.pdf" ]} ]
              "Python and SQL skills") as [Hlist _].
  - reflexivity.
  - reflexivity.
  - vm_compute. discriminate.
  - destruct (value (analyze_resumes Sample.nlp Sample.stop_words Sample.lemmatize
              Sample.word_tokenize Sample.cosine_similarity Sample.open_pdf
              Sample.round_float Sample.round_float32 Sample.list_of_set
                       (Some Sample.batch))) as [answer|] eqn:Hanswer.
    2:{ vm_compute in Hanswer. discriminate Hanswer. }
    destruct (resp_results answer) as [results_list|] eqn:Hresults.
    2:{ vm_compute in Hanswer. injection Hanswer as <-. discriminate Hresults. }
    exists answer, results_list.
    destruct (Hlist answer results_list eq_refl Hresults) as [Hnames Hlength].
    split; [reflexivity |]. split; [exact Hresults |].
    split; [rewrite Hnames | rewrite Hlength]; vm_compute; reflexivity.
Defined.

(** C4, as the specification states it, fails twice.  A resume without
    [path] gets no entry: the three resumes of [Sample.batch] give two
    entries.  And when no resume completes the pipeline the entries are
    dropped: the two resumes of [Sample.all_bad] give no result list. *)
Lemma not_one_entry_per_resume :
  ~ (forall data files job_description_raw,
       resume_files data = Some files ->
       job_description data = Some job_description_raw ->
       value (preprocess Sample.stop_words Sample.lemmatize Sample.word_tokenize
                job_description_raw) <> "" ->
       exists answer results_list,
         value (analyze_resumes Sample.nlp Sample.stop_words Sample.lemmatize
              Sample.word_tokenize Sample.cosine_similarity Sample.open_pdf
              Sample.round_float Sample.round_float32 Sample.list_of_set
                  (Some data)) = Returned answer /\
         resp_results answer = Some results_list /\
         length results_list = length files) /\
  (exists answer,
     value (analyze_resumes Sample.nlp Sample.stop_words Sample.lemmatize
              Sample.word_tokenize Sample.cosine_similarity Sample.open_pdf
              Sample.round_float Sample.round_float32 Sample.list_of_set
              (Some Sample.batch)) = Returned answer /\
     length <$> resp_results answer = Some 2%nat) /\
  (exists answer,
     value (analyze_resumes Sample.nlp Sample.stop_words Sample.lemmatize
              Sample.word_tokenize Sample.cosine_similarity Sample.open_pdf
              Sample.round_float Sample.round_float32 Sample.list_of_set
              (Some Sample.all_bad)) = Returned answer /\
     resp_results answer = None).
Proof.
  split; [| split; eexists; (split; [vm_compute; reflexivity | reflexivity])].
  intros H.
  destruct (H Sample.batch _ "Python and SQL skills" eq_refl eq_refl)
    as (answer & results_list & Hanswer & Hresults & Hlength).
  - vm_compute. discriminate.
  - vm_compute in Hanswer. injection Hanswer as <-.
    cbn [resp_results] in Hresults. injection Hresults as <-. discriminate Hlength.
Qed.

(** C8: the batch status is not a success on a batch in which a resume
    completes the pipeline with a cosine strictly between zero and one.
    The resume [/tmp/good.pdf] of [Sample.batch] has a path, yields text
    and normalizes to a non-empty text; its cosine of [0.6] is a
    [numpy.float32], and so is its score after the clamp, the product
    and the rounding, whatever digits the rounding keeps.  The handler
    counts the resume as valid and then raises in [jsonify], which cannot
    serialize the score, instead of answering with a success. *)
Theorem completed_resume_is_not_reported (round_float round_float32 : spec_float -> spec_float) :
  completes Sample.stop_words Sample.lemmatize Sample.word_tokenize Sample.open_pdf
    {[ "path" := "/tmp/good.pdf" ]} = true /\
  snd (value (analyze_loop Sample.nlp Sample.stop_words Sample.lemmatize
                Sample.word_tokenize Sample.cosine_sixty Sample.open_pdf
                round_float round_float32 Sample.list_of_set
                "python sql skill"
                [ {[ "path" := "/tmp/good.pdf" ]};
                  {[ "original_name" := "cv.pdf" ]};
                  {[ "path" := "/tmp/none.pdf"; "original_name" := "lost.pdf" ]} ])) = 1%nat /\
  value (analyze_resumes Sample.nlp Sample.stop_words Sample.lemmatize
           Sample.word_tokenize Sample.cosine_sixty Sample.open_pdf
           round_float round_float32 Sample.list_of_set (Some Sample.batch)) = Raised.
Proof. split; [| split]; vm_compute; reflexivity. Qed.


Lemma calculate_similarity_range_witness :
  Float.leb (value (calculate_similarity Sample.nlp Sample.cosine_sixty "python" "sql"))
    Float.hundred = true /\
  value (calculate_similarity Sample.nlp Sample.cosine_sixty "python" "zzz") = Float.zero.
Proof.
  split.
  - apply (calculate_similarity_range Sample.nlp Sample.cosine_sixty "python" "sql").
    intros u v. reflexivity.
  - apply (calculate_similarity_range Sample.nlp Sample.cosine_sixty "python" "zzz").
    + intros u v. reflexivity.
    + right. right. right. right. right. reflexivity.
Defined.

Lemma calculate_similarity_symmetric_witness :
  value (calculate_similarity Sample.nlp Sample.cosine_similarity "python" "zzz")
  = value (calculate_similarity Sample.nlp Sample.cosine_similarity "zzz" "python").
Proof.
  apply (calculate_similarity_symmetric Sample.nlp Sample.cosine_similarity "python" "zzz").
  intros u v. reflexivity.
Defined.


Example lower_example : PyStr.lower "Senior Python-Dev, AWS" = "senior python-dev, aws".
Proof. reflexivity. Qed.

Example sub_nonword_example :
  PyStr.sub_nonword "c++, python;  sql_2 -- go!" = "c python sql_2 go ".
Proof. reflexivity. Qed.

Example split_example :
  PyStr.split "  data   analysis tools " = ["data"; "analysis"; "tools"].
Proof. reflexivity. Qed.

Example basename_example : PyStr.basename "/tmp/resume_uploads/ab12.pdf" = "ab12.pdf".
Proof. reflexivity. Qed.

Example one_and_hundred_are_canonical :
  Float.valid Float.one = true /\ Float.valid Float.hundred = true /\
  Float.valid (Float.Np32 Float.hundred32) = true.
Proof. repeat split; reflexivity. Qed.

Example one_times_hundred : Float.times_hundred Float.one = Float.hundred.
Proof. reflexivity. Qed.

(** One half, the cosine of two vectors at sixty degrees, scores [50.0],
    in the type of the cosine. *)
Example half_times_hundred :
  Float.times_hundred
    (Float.py_max Float.zero
       (Float.py_min Float.one (Float.Np32 (S754_finite false 8388608 (-24)))))
  = Float.Np32 (S754_finite false 13107200 (-18)).
Proof. reflexivity. Qed.

(** A cosine of [0.6] as a [numpy.float32] scores [60.000004]: the
    product is rounded in binary32, one unit in the last place above
    [60.0]. *)
Example sixty_in_binary32 :
  Float.times_hundred
    (Float.py_max Float.zero
       (Float.py_min Float.one (Float.Np32 (S754_finite false 10066330 (-24)))))
  = Float.Np32 (S754_finite false 15728641 (-18)).
Proof. reflexivity. Qed.

(** A NaN cosine is clamped to one: [min(1.0, nan)] keeps its first
    argument, the Python float [1.0]. *)
Example nan_scores_hundred :
  Float.times_hundred (Float.py_max Float.zero (Float.py_min Float.one (Float.Np32 S754_nan)))
  = Float.hundred.
Proof. reflexivity. Qed.

Example preprocess_example :
  preprocess Sample.stop_words Sample.lemmatize Sample.word_tokenize
    "Contact us for the Python Skills"
  = Traced [Tokenize "contact us for the python skills";
            Lemmatize "contact"; Lemmatize "us"; Lemmatize "python"; Lemmatize "skills"]
      "contact u python skill".
Proof. vm_compute. reflexivity. Qed.

Example extract_text_example :
  value (extract_text_from_pdf Sample.open_pdf "/tmp/scan.pdf") = None /\
  value (extract_text_from_pdf Sample.open_pdf "/tmp/missing.pdf") = None.
Proof. split; reflexivity. Qed.

Example analyze_skills_example :
  value (analyze_skills Sample.nlp Sample.stop_words Sample.list_of_set
           "python skill sql" "sql docker")
  = (["sql"], ["skill"; "python"],
     "Candidate shows strength in 1 key areas. Potential gaps identified in 2 areas like: skill, python...").
Proof. vm_compute. reflexivity. Qed.

Example analyze_resumes_example :
  value (analyze_resumes Sample.nlp Sample.stop_words Sample.lemmatize
           Sample.word_tokenize Sample.cosine_similarity Sample.open_pdf
           Sample.round_float Sample.round_float32 Sample.list_of_set (Some Sample.batch))
  = Returned
      {| http_code := 200; resp_status := success;
         resp_message := "Successfully analyzed 1 resume(s)";
         resp_results :=
           Some [ SuccessEntry "good.pdf" Float.hundred ["skill"; "sql"; "python"] []
                    "Candidate shows strength in 3 key areas. Covers all key skill areas identified.";
                  ErrorEntry "lost.pdf" "Could not extract text from PDF" ] |}.
Proof. vm_compute. reflexivity. Qed.


Example allowed_file_examples :
  map allowed_file ["cv.pdf"; "CV.PDF"; "cv"; "cv.pdf.zip"; ".pdf"; "pdf"; "cv."; "a.b.Pdf"]
  = [true; true; false; false; true; false; false; true].
Proof. vm_compute. reflexivity. Qed.


Example upload_example :
  upload_resumes SampleUpload.UPLOAD_FOLDER SampleUpload.uuid4_hex (Some SampleUpload.files)
  = ({| upload_code := 200; upload_status := success;
        upload_message := "Successfully uploaded 2 resume(s)";
        upload_files :=
          Some [ {| original_name := "My CV (final).PDF"; stored_name := "id0.pdf";
                    path := "/tmp/resume_uploads/id0.pdf" |};
                 {| original_name := "../../etc/cv.pdf"; stored_name := "id1.pdf";
                    path := "/tmp/resume_uploads/id1.pdf" |} ] |},
     [("/tmp/resume_uploads/id0.pdf", "%PDF-1"); ("/tmp/resume_uploads/id1.pdf", "%PDF-2")]).
Proof. vm_compute. reflexivity. Qed.


Lemma upload_names_distinct_witness :
  NoDup (map stored_name
           (uploaded_files
              (upload_loop SampleUpload.UPLOAD_FOLDER SampleUpload.uuid4_hex
                 SampleUpload.files))).
Proof.
  apply (upload_names_distinct SampleUpload.UPLOAD_FOLDER SampleUpload.uuid4_hex
           SampleUpload.files).
  intros [|[|i]] [|[|j]] Hi Hj H; try reflexivity; try discriminate H;
    vm_compute in Hi, Hj; lia.
Defined.


Example strip_example :
  PyStr.strip ("  Senior  engineer " ++ PyStr.newline) = "Senior  engineer".
Proof. reflexivity. Qed.

Example submit_example :
  jd_status (submit_job_description "0f3a" (Some {| resume_files := None;
                                                   job_description := Some "   " |}))
  = error.
Proof. reflexivity. Qed.


Lemma extract_skills_invariant_witness :
  (2 < PyStr.len "python")%nat.
Proof.
  destruct (extract_skills_invariant Sample.nlp Sample.stop_words "python skill sql")
    as [_ Hskills].
  apply (Hskills "python"). vm_compute. reflexivity.
Defined.


(** ** Loading the resources *)

(** X16: a call of [load_nlp_resources] that returns leaves the three
    globals set, and a further call then does nothing: it makes no
    download and no load, and leaves the globals as they are. *)
Theorem load_nlp_resources_once (spacy_load : nat -> outcome (string -> Doc))
    (cli_download : outcome unit) (stopwords_words : outcome (list string))
    (lemmatizer : string -> string) (g : nlp_globals) :
  let first := load_nlp_resources spacy_load cli_download stopwords_words lemmatizer g in
  raised first = false ->
  is_Some (g_nlp (globals_after first)) /\
  is_Some (g_stop_words (globals_after first)) /\
  is_Some (g_lem (globals_after first)) /\
  load_nlp_resources spacy_load cli_download stopwords_words lemmatizer (globals_after first)
    = {| setup_calls := []; globals_after := globals_after first; raised := false |}.
Proof.
  unfold load_nlp_resources.
  destruct g as [[model|] [words|] [lem|]]; cbn [g_nlp g_stop_words g_lem];
    try (intros _; cbn; repeat split; eauto; fail);
    destruct (spacy_load 0%nat) as [model0|];
    try destruct cli_download as [[]|];
    try destruct (spacy_load 1%nat) as [model1|];
    destruct stopwords_words as [english|];
    cbn; intros Hraised; try discriminate Hraised; repeat split; eauto.
Qed.

(** X17: a call of [load_nlp_resources] that raises never assigns the
    stop words or the lemmatizer, and assigns the model only when one of
    the two calls of [spacy.load] returned: when the model cannot be
    loaded even after its download, or the download itself fails, all
    three globals are as before. *)
Theorem load_nlp_resources_failure (spacy_load : nat -> outcome (string -> Doc))
    (cli_download : outcome unit) (stopwords_words : outcome (list string))
    (lemmatizer : string -> string) (g : nlp_globals) :
  let r := load_nlp_resources spacy_load cli_download stopwords_words lemmatizer g in
  raised r = true ->
  g_stop_words (globals_after r) = g_stop_words g /\
  g_lem (globals_after r) = g_lem g /\
  (spacy_load 0%nat = Raised ->
   cli_download = Raised \/ spacy_load 1%nat = Raised ->
   globals_after r = g).
Proof.
  unfold load_nlp_resources.
  destruct g as [[model|] [words|] [lem|]]; cbn [g_nlp g_stop_words g_lem];
    try (intros Hraised; discriminate Hraised);
    destruct (spacy_load 0%nat) as [model0|];
    try destruct cli_download as [[]|];
    try destruct (spacy_load 1%nat) as [model1|];
    destruct stopwords_words as [english|];
    cbn; intros Hraised; try discriminate Hraised; repeat split; auto;
    try discriminate; intros _ [H|H]; discriminate H.
Qed.

Lemma load_nlp_resources_once_witness :
  setup_calls
    (load_nlp_resources SampleSetup.spacy_load SampleSetup.cli_download
       SampleSetup.stopwords_words Sample.lemmatize
       (globals_after
          (load_nlp_resources SampleSetup.spacy_load SampleSetup.cli_download
             SampleSetup.stopwords_words Sample.lemmatize SampleSetup.unloaded)))
  = [].
Proof.
  destruct (load_nlp_resources_once SampleSetup.spacy_load SampleSetup.cli_download
              SampleSetup.stopwords_words Sample.lemmatize SampleSetup.unloaded)
    as (_ & _ & _ & Hsecond).
  - reflexivity.
  - now rewrite Hsecond.
Defined.

Lemma load_nlp_resources_failure_witness :
  globals_after
    (load_nlp_resources (fun _ => Raised) SampleSetup.cli_download
       SampleSetup.stopwords_words Sample.lemmatize SampleSetup.unloaded)
  = SampleSetup.unloaded.
Proof.
  destruct (load_nlp_resources_failure (fun _ => Raised) SampleSetup.cli_download
              SampleSetup.stopwords_words Sample.lemmatize SampleSetup.unloaded)
    as (_ & _ & Hsame).
  - reflexivity.
  - apply Hsame; [reflexivity | right; reflexivity].
Defined.

Example first_start :
  setup_calls
    (load_nlp_resources SampleSetup.spacy_load SampleSetup.cli_download
       SampleSetup.stopwords_words Sample.lemmatize SampleSetup.unloaded)
  = [NltkDownload "wordnet"; NltkDownload "stopwords"; NltkDownload "punkt";
     SpacyLoad "en_core_web_lg"; SpacyCliDownload "en_core_web_lg";
     SpacyLoad "en_core_web_lg"].
Proof. reflexivity. Qed.


Lemma calculate_similarity_saturates_witness :
  value (calculate_similarity Sample.nlp Sample.cosine_similarity "python" "sql")
  = Float.hundred.
Proof.
  apply (calculate_similarity_saturates Sample.nlp Sample.cosine_similarity "python" "sql");
    try discriminate; reflexivity.
Defined.

Lemma entries_tell_the_stage_witness :
  exists resume_file file_path,
    In resume_file (default [] (resume_files Sample.batch)) /\
    resume_file !! "path" = Some file_path /\
    "lost.pdf" = resume_name resume_file.
Proof.
  destruct (entries_tell_the_stage Sample.nlp Sample.stop_words Sample.lemmatize
              Sample.word_tokenize Sample.cosine_similarity Sample.open_pdf Sample.round_float Sample.round_float32
              Sample.list_of_set "python sql skill"
              (default [] (resume_files Sample.batch))
              (ErrorEntry "lost.pdf" "Could not extract text from PDF"))
    as (resume_file & file_path & Hin & Hpath & Hname & _).
  - vm_compute. right. left. reflexivity.
  - exists resume_file, file_path. auto.
Defined.

Lemma success_entries_bounded_witness :
  (length ["skill"; "sql"; "python"] <= 10)%nat /\
  (length (@nil string) <= 10)%nat /\
  exists score,
    Float.Np32 (S754_finite false 15728641 (-18))
      = round1 Sample.round_float Sample.round_float32 score /\
    Float.is_nan score = false /\
    Float.leb Float.zero score = true /\
    Float.leb score Float.hundred = true.
Proof.
  apply (success_entries_bounded Sample.nlp Sample.stop_words Sample.lemmatize
           Sample.word_tokenize Sample.cosine_sixty Sample.open_pdf
           Sample.round_float Sample.round_float32
           Sample.list_of_set "python sql skill"
           (default [] (resume_files Sample.batch))
           "good.pdf" (Float.Np32 (S754_finite false 15728641 (-18)))
           ["skill"; "sql"; "python"] []
           "Candidate shows strength in 3 key areas. Covers all key skill areas identified.").
  - intros u v. reflexivity.
  - vm_compute. left. reflexivity.
Defined.

Lemma analyze_skills_full_coverage_witness :
  value (analyze_skills Sample.nlp Sample.stop_words Sample.list_of_set "sql" "sql docker")
  = (["sql"], [],
     "Candidate shows strength in 1 key areas. Covers all key skill areas identified.").
Proof.
  etransitivity.
  - apply (analyze_skills_full_coverage Sample.nlp Sample.stop_words Sample.list_of_set
             "sql" "sql docker").
    + intros s x Hx. unfold Sample.list_of_set in Hx. now apply elem_of_elements in Hx.
    + apply (bool_decide_unpack _). vm_compute. exact I.
    + apply (bool_decide_unpack _). vm_compute. exact I.
  - vm_compute. reflexivity.
Defined.

Lemma basename_path_join_witness :
  PyStr.basename (PyStr.path_join "/tmp/resume_uploads" "id0.pdf") = "id0.pdf".
Proof. apply basename_path_join. reflexivity. Defined.


Lemma upload_then_analyze_witness :
  map entry_resume
    [SuccessEntry "good.pdf" Float.hundred
       ["skill"; "sql"; "python"] []
       "Candidate shows strength in 3 key areas. Covers all key skill areas identified."]
  = ["good.pdf"].
Proof.
  apply (upload_then_analyze Sample.nlp Sample.stop_words Sample.lemmatize
           Sample.word_tokenize Sample.cosine_similarity Sample.open_pdf
           Sample.round_float Sample.round_float32
           Sample.list_of_set
           [ {| original_name := "good.pdf"; stored_name := "id0.pdf";
                path := "/tmp/good.pdf" |} ]
           {| resume_files :=
                Some [ as_resume_file {| original_name := "good.pdf";
                                         stored_name := "id0.pdf";
                                         path := "/tmp/good.pdf" |} ];
              job_description := Some "Python and SQL skills" |}
           {| http_code := 200; resp_status := success;
              resp_message := "Successfully analyzed 1 resume(s)";
              resp_results :=
                Some [SuccessEntry "good.pdf" Float.hundred
                        ["skill"; "sql"; "python"] []
                        "Candidate shows strength in 3 key areas. Covers all key skill areas identified."] |}).
  - reflexivity.
  - vm_compute. reflexivity.
  - reflexivity.
Defined.
